(** * Secure-Auth-Express: password policy, auth gate and auth routes

    A shallow embedding of [middleware/authMiddleware.js] and
    [routes/authRouter.js], with the properties of the design document
    stated and settled against it.

    Conventions of the embedding.
    - A JavaScript string is a [string]: a sequence of UTF-16 code units,
      here the code units below 256 (one [ascii] each).  [length], regular
      expression classes, [split], [trim] and [toLowerCase] all work code
      unit by code unit on that range, as they do in the engine.
    - A request field that may be missing is an [option string];
      [undefined] is [None].
    - [await]ed collaborators (the [User] model, [bcrypt], [jwt]) are
      functions of the world that either return or throw; [try]/[catch]
      is the handler of a state-and-exception monad. *)

From Stdlib Require Import String Ascii List Bool Arith ZArith Lia.
From Stdlib Require Import HexString Permutation.
Import ListNotations.

Local Open Scope string_scope.

(* ================================================================== *)
(** * JavaScript primitives used by the source *)
(* ================================================================== *)

Module Js.

(** [!x] for a string-or-undefined value: [undefined] and the empty
    string are falsy, every other string is truthy. *)
Definition truthy (x : option string) : bool :=
  match x with
  | None => false
  | Some s => negb (s =? EmptyString)
  end.

Definition code (c : ascii) : nat := nat_of_ascii c.

(** ** Regular expression character classes, [/[...]/.test(s)] *)

Inductive ClassAtom : Type :=
| CRange (lo hi : ascii)       (* [lo-hi] *)
| CChar (c : ascii).           (* a single, possibly escaped, character *)

Definition atom_matches (c : ascii) (a : ClassAtom) : bool :=
  match a with
  | CRange lo hi => ((code lo <=? code c) && (code c <=? code hi))%nat
  | CChar d => Ascii.eqb c d
  end.

Definition class_matches (cls : list ClassAtom) (c : ascii) : bool :=
  existsb (atom_matches c) cls.

(** [/[cls]/.test(s)]: some code unit of [s] is in the class. *)
Definition test (cls : list ClassAtom) (s : string) : bool :=
  existsb (class_matches cls) (list_ascii_of_string s).

(** ** [s.split(sep)] for a one-character separator *)

Fixpoint split (sep : ascii) (s : string) : list string :=
  match s with
  | EmptyString => [EmptyString]
  | String c r =>
      if Ascii.eqb c sep then EmptyString :: split sep r
      else match split sep r with
           | h :: t => String c h :: t
           | [] => [String c EmptyString]
           end
  end.

(** ** [s.toLowerCase()] on the code units below 256 *)

Definition lower_char (c : ascii) : ascii :=
  let n := code c in
  if (((65 <=? n) && (n <=? 90))
      || ((192 <=? n) && (n <=? 222) && negb (n =? 215)))%nat
  then ascii_of_nat (n + 32) else c.

Fixpoint toLowerCase (s : string) : string :=
  match s with
  | EmptyString => EmptyString
  | String c r => String (lower_char c) (toLowerCase r)
  end.

(** ** [s.trim()]: white space and line terminators below 256 are
    TAB, LF, VT, FF, CR, SP and NBSP. *)

Definition isWhiteSpace (c : ascii) : bool :=
  let n := code c in
  (((9 <=? n) && (n <=? 13)) || (n =? 32) || (n =? 160))%nat.

Fixpoint trimStart (s : string) : string :=
  match s with
  | EmptyString => EmptyString
  | String c r => if isWhiteSpace c then trimStart r else s
  end.

Fixpoint trimEnd (s : string) : string :=
  match s with
  | EmptyString => EmptyString
  | String c r =>
      match trimEnd r with
      | EmptyString => if isWhiteSpace c then EmptyString
                       else String c EmptyString
      | r' => String c r'
      end
  end.

Definition trim (s : string) : string := trimEnd (trimStart s).

(** The code unit [c] occurs in [s]. *)
Definition occurs (c : ascii) (s : string) : Prop :=
  In c (list_ascii_of_string s).

End Js.

(* ================================================================== *)
(** * routes/authRouter.js: [validatePassword] *)
(* ================================================================== *)

Record PasswordValidation : Type := {
  isValid : bool;
  message : option string
}.

Definition dquote : ascii := "034"%char.
Definition backslash : ascii := "092"%char.

(** [/[A-Z]/], [/[a-z]/], [/[0-9]/] *)
Definition reUpper : list Js.ClassAtom := [Js.CRange "A" "Z"].
Definition reLower : list Js.ClassAtom := [Js.CRange "a" "z"].
Definition reDigit : list Js.ClassAtom := [Js.CRange "0" "9"].

(** The characters of the class of the fifth test, in the order of the
    source; the double quote and the backslash are named. *)
Definition specialCharacters : list ascii :=
  ["!"; "@"; "#"; "$"; "%"; "^"; "&"; "*"; "("; ")"; "_"; "+"; "-"; "=";
   "["; "]"; "{"; "}"; ";"; "'"; ":"; dquote; backslash; "|"; ",";
   "."; "<"; ">"; "/"; "?"]%char.

Definition reSpecial : list Js.ClassAtom := map Js.CChar specialCharacters.

Definition invalid (msg : string) : PasswordValidation :=
  {| isValid := false; message := Some msg |}.

Definition validatePassword (password : string) : PasswordValidation :=
  if (String.length password <? 8)%nat then
    invalid "Password must be at least 8 characters long"
  else if negb (Js.test reUpper password) then
    invalid "Password must contain at least one uppercase letter"
  else if negb (Js.test reLower password) then
    invalid "Password must contain at least one lowercase letter"
  else if negb (Js.test reDigit password) then
    invalid "Password must contain at least one number"
  else if negb (Js.test reSpecial password) then
    invalid "Password must contain at least one special character"
  else {| isValid := true; message := None |}.

(** The five rules of the password policy, in the words of the design
    document, to compare [validatePassword] with. *)
Module Policy.

Definition contains (P : ascii -> Prop) (p : string) : Prop :=
  exists c, In c (list_ascii_of_string p) /\ P c.

Definition uppercase (c : ascii) : Prop := 65 <= Js.code c <= 90.
Definition lowercase (c : ascii) : Prop := 97 <= Js.code c <= 122.
Definition digit (c : ascii) : Prop := 48 <= Js.code c <= 57.
Definition special (c : ascii) : Prop := In c specialCharacters.

Definition longEnough (p : string) : Prop := 8 <= String.length p.
Definition hasUpper : string -> Prop := contains uppercase.
Definition hasLower : string -> Prop := contains lowercase.
Definition hasDigit : string -> Prop := contains digit.
Definition hasSpecial : string -> Prop := contains special.

Definition satisfied (p : string) : Prop :=
  longEnough p /\ hasUpper p /\ hasLower p /\ hasDigit p /\ hasSpecial p.

End Policy.

(* ================================================================== *)
(** * Values crossing the HTTP boundary *)
(* ================================================================== *)

(** The JSON values the handlers send. *)
#[local] Set Warnings "-register-all".
Inductive Json : Type :=
| JBool (b : bool)
| JNum (z : Z)
| JStr (s : string)
| JObj (fields : list (string * Json)).

(** A property whose value may be [undefined] is left out by
    [JSON.stringify]. *)
Definition optField (k : string) (v : option string) : list (string * Json) :=
  match v with
  | Some s => [(k, JStr s)]
  | None => []
  end.

Fixpoint lookup (k : string) (fields : list (string * Json)) : option Json :=
  match fields with
  | [] => None
  | (k', v) :: rest => if k =? k' then Some v else lookup k rest
  end.

Definition field (k : string) (j : Json) : option Json :=
  match j with
  | JObj fields => lookup k fields
  | _ => None
  end.

Definition keys (j : Json) : list string :=
  match j with
  | JObj fields => map fst fields
  | _ => []
  end.

(** [res.status(code).json(body)] *)
Record Response : Type := {
  status : nat;
  body : Json
}.

Record Request : Type := {
  authorization : option string;      (* req.headers.authorization *)
  body_name : option string;          (* req.body.name *)
  body_email : option string;         (* req.body.email *)
  body_password : option string       (* req.body.password *)
}.

(** What a [catch] clause of the source looks at in a thrown value:
    [error.name], [error.code] and the messages of [error.errors]. *)
Record JsError : Type := {
  err_name : string;
  err_message : string;
  err_code : option Z;
  err_errors : list string
}.

Definition Error (msg : string) : JsError :=
  {| err_name := "Error"; err_message := msg;
     err_code := None; err_errors := [] |}.

Inductive Outcome (A : Type) : Type :=
| Returned (a : A)
| Thrown (e : JsError).
Arguments Returned {A} a.
Arguments Thrown {A} e.

(* ================================================================== *)
(** * A state-and-exception monad for the [async] handlers *)
(* ================================================================== *)

Definition M (W A : Type) : Type := W -> Outcome A * W.

Definition ret {W A} (a : A) : M W A := fun w => (Returned a, w).

Definition bind {W A B} (c : M W A) (k : A -> M W B) : M W B :=
  fun w =>
    match c w with
    | (Returned a, w') => k a w'
    | (Thrown e, w') => (Thrown e, w')
    end.

(** An [await] on a collaborator that only reads the world. *)
Definition await {W A} (f : W -> Outcome A) : M W A := fun w => (f w, w).

(** [try { c } catch (error) { h error }], with a handler that answers. *)
Definition tryCatch {W A} (c : M W A) (h : JsError -> A) : W -> A * W :=
  fun w =>
    match c w with
    | (Returned a, w') => (a, w')
    | (Thrown e, w') => (h e, w')
    end.

Declare Scope js_scope.
Delimit Scope js_scope with js.
Notation "x <- c ;; k" := (bind c (fun x => k))
  (at level 61, c at next level, right associativity) : js_scope.

(* ================================================================== *)
(** * The collaborators: the User model, bcryptjs and jsonwebtoken *)
(* ================================================================== *)

(** A stored user document, [user._id], [user.email], ... *)
Module Account.
Record t : Type := {
  _id : string;
  name : string;
  email : string;
  password : string;                (* the bcrypt hash *)
  createdAt : Z;
  updatedAt : Z
}.
End Account.
Abbreviation Account := Account.t.

Record NewUser : Type := {
  new_name : string;
  new_email : string;
  new_password : string
}.

Module User.
(** The interface of the Mongoose model the routes call. *)
Record model (W : Type) : Type := {
  findOne : string -> W -> Outcome (option Account);   (* by email *)
  findById : string -> W -> Outcome (option Account);
  create : NewUser -> M W Account
}.
Arguments findOne {W} _ _ _.
Arguments findById {W} _ _ _.
Arguments create {W} _ _ _.
End User.

Module bcrypt.
Record lib (W : Type) : Type := {
  hash : string -> Z -> W -> Outcome string;
  compare : string -> string -> W -> Outcome bool
}.
Arguments hash {W} _ _ _ _.
Arguments compare {W} _ _ _ _.
End bcrypt.

(** [expiresIn]: a number of seconds, or a time span such as ["24h"]. *)
Inductive TimeSpan : Type :=
| Seconds (n : Z)
| Minutes (n : Z)
| Hours (n : Z)
| Days (n : Z).

Definition seconds (t : TimeSpan) : Z :=
  match t with
  | Seconds n => n
  | Minutes n => 60 * n
  | Hours n => 3600 * n
  | Days n => 86400 * n
  end.

(** The payload the login route signs. *)
Record TokenPayload : Type := {
  userId : string;
  payload_email : string
}.

(** A verified token, decoded: the signed payload and the registered
    claims. *)
Record Claims : Type := {
  payload : TokenPayload;
  iat : Z;
  nbf : option Z;
  exp : option Z
}.

Module jwt.
Record lib (W : Type) : Type := {
  sign : TokenPayload -> string -> TimeSpan -> W -> Outcome string;
  verify : string -> string -> W -> Outcome Claims
}.
Arguments sign {W} _ _ _ _ _.
Arguments verify {W} _ _ _ _.
End jwt.

(* ================================================================== *)
(** * Response bodies *)
(* ================================================================== *)

(** [{ success: false, message }] *)
Definition failure (code : nat) (msg : option string) : Response :=
  {| status := code;
     body := JObj (("success", JBool false) :: optField "message" msg) |}.

(** [{ success: true, message, data }] *)
Definition success (code : nat) (msg : string) (data : Json) : Response :=
  {| status := code;
     body := JObj [("success", JBool true); ("message", JStr msg);
                   ("data", data)] |}.

(** The [options] argument of both exported constructors. *)
Module Options.
Record t : Type := {
  secret : option string;
  expiresIn : option TimeSpan;
  bcryptRounds : option Z
}.
End Options.
Abbreviation Options := Options.t.

(** A destructuring default, [{ x = d } = options]. *)
Definition orDefault {A} (x : option A) (d : A) : A :=
  match x with
  | Some a => a
  | None => d
  end.

(** The string held by a field already known to be truthy. *)
Definition str (x : option string) : string := orDefault x EmptyString.

(** [x === s] for a value that may be [undefined]. *)
Definition strictEq (x : option string) (s : string) : bool :=
  match x with
  | Some t => t =? s
  | None => false
  end.

(** [req.user], as the middleware attaches it. *)
Module ReqUser.
Record t : Type := {
  id : string;
  email : string
}.
End ReqUser.
Abbreviation ReqUser := ReqUser.t.

(** A middleware either answers the request or calls [next()]. *)
Inductive GateResult : Type :=
| Respond (r : Response)
| Next (user : ReqUser).

Definition Middleware (W : Type) : Type := Request -> W -> GateResult.

(** The header format of the design document: [h] is exactly two tokens
    [a] and [b] separated by one space. *)
Definition twoTokens (h a b : string) : Prop :=
  h = a ++ " " ++ b /\ ~ Js.occurs " " a /\ ~ Js.occurs " " b.

Record Router (W : Type) : Type := {
  post_register : Request -> W -> Response * W;
  post_login : Request -> W -> Response * W;
  get_me : Request -> W -> Response * W
}.
Arguments post_register {W} _ _ _.
Arguments post_login {W} _ _ _.
Arguments get_me {W} _ _ _.

Section Source.

Context {W : Type}.
Variable U : User.model W.
Variable B : bcrypt.lib W.
Variable J : jwt.lib W.

Local Open Scope js_scope.

(* ---------------------------------------------------------------- *)
(** ** middleware/authMiddleware.js *)
(* ---------------------------------------------------------------- *)

(** The [catch] clause of the middleware. *)
Definition authCatch (error : JsError) : Response :=
  if err_name error =? "JsonWebTokenError" then
    failure 401 (Some "Invalid token")
  else if err_name error =? "TokenExpiredError" then
    failure 401 (Some "Token has expired")
  else
    failure 401 (Some "Authentication failed").

(** The function [authMiddleware] returns, for a secret that passed
    the check. *)
Definition authHandler (secret : string) : Middleware W :=
  fun req w =>
    let authHeader := authorization req in
    if negb (Js.truthy authHeader) then
      Respond (failure 401 (Some "Authorization header is required"))
    else
      let parts := Js.split " " (str authHeader) in
      if negb (List.length parts =? 2)%nat
         || negb (strictEq (nth_error parts 0) "Bearer") then
        Respond (failure 401
          (Some "Invalid authorization header format. Use: Bearer <token>"))
      else
        let token := str (nth_error parts 1) in
        match jwt.verify J token secret w with
        | Returned decoded =>
            Next {| ReqUser.id := userId (payload decoded);
                    ReqUser.email := payload_email (payload decoded) |}
        | Thrown error => Respond (authCatch error)
        end.

(** The [try]/[catch] around [jwt.verify], on its own: what the handler
    does once the header has given a token. *)
Definition verdict (secret token : string) (w : W) : GateResult :=
  match jwt.verify J token secret w with
  | Returned decoded =>
      Next {| ReqUser.id := userId (payload decoded);
              ReqUser.email := payload_email (payload decoded) |}
  | Thrown error => Respond (authCatch error)
  end.

Definition authMiddleware (options : Options) : Outcome (Middleware W) :=
  let secret := Options.secret options in
  if negb (Js.truthy secret) then
    Thrown (Error "JWT secret is required for authMiddleware")
  else
    Returned (authHandler (str secret)).

(* ---------------------------------------------------------------- *)
(** ** routes/authRouter.js *)
(* ---------------------------------------------------------------- *)

Definition normalizeEmail (email : string) : string :=
  Js.trim (Js.toLowerCase email).

(** [{ id, name, email, createdAt }] *)
Definition userResponse (user : Account) : Json :=
  JObj [("id", JStr (Account._id user));
        ("name", JStr (Account.name user));
        ("email", JStr (Account.email user));
        ("createdAt", JNum (Account.createdAt user))].

(** [{ id, name, email, createdAt, updatedAt }] *)
Definition userResponseMe (user : Account) : Json :=
  JObj [("id", JStr (Account._id user));
        ("name", JStr (Account.name user));
        ("email", JStr (Account.email user));
        ("createdAt", JNum (Account.createdAt user));
        ("updatedAt", JNum (Account.updatedAt user))].

Definition internalError : Response :=
  failure 500 (Some "Internal server error").

(** The [try] block of [POST /register]. *)
Definition registerTry (bcryptRounds : Z) (req : Request) : M W Response :=
  let name := body_name req in
  let email := body_email req in
  let password := body_password req in
  if negb (Js.truthy name) || negb (Js.truthy email)
     || negb (Js.truthy password) then
    ret (failure 400 (Some "Name, email, and password are required"))
  else
    let passwordValidation := validatePassword (str password) in
    if negb (isValid passwordValidation) then
      ret (failure 400 (message passwordValidation))
    else
      existingUser <- await (User.findOne U (normalizeEmail (str email))) ;;
      match existingUser with
      | Some _ => ret (failure 400 (Some "Email already exists"))
      | None =>
          hashedPassword <- await (bcrypt.hash B (str password) bcryptRounds) ;;
          user <- User.create U {| new_name := Js.trim (str name);
                                   new_email := normalizeEmail (str email);
                                   new_password := hashedPassword |} ;;
          ret (success 201 "User registered successfully"
                 (JObj [("user", userResponse user)]))
      end.

(** The [catch] clause of [POST /register]. *)
Definition registerCatch (error : JsError) : Response :=
  if match err_code error with Some c => (c =? 11000)%Z | None => false end
  then failure 400 (Some "Email already exists")
  else if err_name error =? "ValidationError" then
    failure 400 (Some (String.concat ", " (err_errors error)))
  else internalError.

Definition register (bcryptRounds : Z) (req : Request) : W -> Response * W :=
  tryCatch (registerTry bcryptRounds req) registerCatch.

(** The [try] block of [POST /login]. *)
Definition loginTry (secret : string) (expiresIn : TimeSpan)
    (req : Request) : M W Response :=
  let email := body_email req in
  let password := body_password req in
  if negb (Js.truthy email) || negb (Js.truthy password) then
    ret (failure 400 (Some "Email and password are required"))
  else
    user <- await (User.findOne U (normalizeEmail (str email))) ;;
    match user with
    | None => ret (failure 401 (Some "Invalid email or password"))
    | Some user =>
        isPasswordValid <-
          await (bcrypt.compare B (str password) (Account.password user)) ;;
        if negb isPasswordValid then
          ret (failure 401 (Some "Invalid email or password"))
        else
          token <- await (jwt.sign J {| userId := Account._id user;
                                        payload_email := Account.email user |}
                            secret expiresIn) ;;
          ret (success 200 "Login successful"
                 (JObj [("token", JStr token);
                        ("user", userResponse user)]))
    end.

Definition login (secret : string) (expiresIn : TimeSpan) (req : Request)
  : W -> Response * W :=
  tryCatch (loginTry secret expiresIn req) (fun _ => internalError).

(** The [try] block of the [GET /me] handler, behind the middleware. *)
Definition meTry (user : ReqUser) : M W Response :=
  found <- await (User.findById U (ReqUser.id user)) ;;
  match found with
  | None => ret (failure 404 (Some "User not found"))
  | Some user =>
      ret (success 200 "User retrieved successfully"
             (JObj [("user", userResponseMe user)]))
  end.

Definition me (user : ReqUser) : W -> Response * W :=
  tryCatch (meTry user) (fun _ => internalError).

(** [router.get(path, middleware, handler)] *)
Definition guarded (gate : Middleware W)
    (handler : ReqUser -> W -> Response * W) : Request -> W -> Response * W :=
  fun req w =>
    match gate req w with
    | Respond r => (r, w)
    | Next user => handler user w
    end.

Definition createAuthRouter (options : Options) : Outcome (Router W) :=
  let secret := Options.secret options in
  let expiresIn := orDefault (Options.expiresIn options) (Hours 24) in
  let bcryptRounds := orDefault (Options.bcryptRounds options) 14%Z in
  if negb (Js.truthy secret) then
    Thrown (Error "JWT secret is required for createAuthRouter")
  else
    match authMiddleware {| Options.secret := secret;
                            Options.expiresIn := None;
                            Options.bcryptRounds := None |} with
    | Thrown e => Thrown e
    | Returned gate =>
        Returned {| post_register := register bcryptRounds;
                    post_login := login (str secret) expiresIn;
                    get_me := guarded gate me |}
    end.

End Source.

(* ================================================================== *)
(** * Reference collaborators *)
(* ================================================================== *)

(** The world of the reference collaborators: the stored accounts, oldest
    first, and the clock in seconds. *)
Record World : Type := {
  users : list Account;
  now : Z
}.

Module Directory.

(** The account directory behind the routes.  The model file,
    [models/User.js], is missing; the three operations below follow what the design
    document asks of the directory: [findByEmail(normalizedEmail) ->
    Account?], [findById(id) -> Account?] and [create(fields) -> Account],
    with uniqueness enforced atomically on [email]. *)

Definition byEmail (e : string) (u : Account) : bool := Account.email u =? e.
Definition byId (i : string) (u : Account) : bool := Account._id u =? i.

(** Modelled from the spec: [User.findOne({ email })], the directory's
    [findByEmail]; the model file is missing. *)
Definition findOne (e : string) (w : World) : Outcome (option Account) :=
  Returned (find (byEmail e) (users w)).

(** Modelled from the spec: [User.findById(id)], the directory's
    [findById]; the model file is missing. *)
Definition findById (i : string) (w : World) : Outcome (option Account) :=
  Returned (find (byId i) (users w)).

(** A violated unique index, as the driver reports it: the register
    route looks for [code] 11000. *)
Definition duplicateKey : JsError :=
  {| err_name := "MongoServerError";
     err_message := "E11000 duplicate key error";
     err_code := Some 11000%Z; err_errors := [] |}.

Definition freshId (w : World) : string :=
  HexString.of_nat (List.length (users w)).

(** Modelled from the spec: [User.create(fields)], the directory's
    [create] with uniqueness enforced atomically on [email]; the model
    file is missing, and the validators of its schema with it. *)
Definition create (fields : NewUser) : M World Account :=
  fun w =>
    if existsb (byEmail (new_email fields)) (users w) then
      (Thrown duplicateKey, w)
    else
      let user := {| Account._id := freshId w;
                     Account.name := new_name fields;
                     Account.email := new_email fields;
                     Account.password := new_password fields;
                     Account.createdAt := now w;
                     Account.updatedAt := now w |} in
      (Returned user, {| users := users w ++ [user]; now := now w |}).

Definition model : User.model World :=
  {| User.findOne := findOne; User.findById := findById;
     User.create := create |}.

(** A directory whose storage cannot be reached: every call rejects. *)
Definition unreachable : JsError :=
  {| err_name := "MongoNetworkError"; err_message := "connection refused";
     err_code := None; err_errors := [] |}.

Definition down : User.model World :=
  {| User.findOne := fun _ _ => Thrown unreachable;
     User.findById := fun _ _ => Thrown unreachable;
     User.create := fun _ w => (Thrown unreachable, w) |}.

End Directory.

Module Bcrypt.

(** Modelled from the spec: the credential hasher, [hash(password, cost)].
    bcryptjs is a dependency; this is an ideal password hash,
    whose [compare] accepts exactly the password a hash was made from.
    Salt and cost leave no trace in it. *)
Definition hash (s : string) (rounds : Z) (w : World) : Outcome string :=
  Returned ("$2a$" ++ s).

(** Modelled from the spec: [verify(password, hashedValue) -> bool], which
    never throws on a mismatch. *)
Definition compare (s h : string) (w : World) : Outcome bool :=
  Returned (h =? "$2a$" ++ s).

Definition lib : bcrypt.lib World :=
  {| bcrypt.hash := hash; bcrypt.compare := compare |}.

End Bcrypt.

Module Jwt.

(** The token service.  jsonwebtoken is a dependency; [sign] and
    [verify] below follow the design document (a
    signed structure binding the subject, issued-at and expiry to the
    secret; verification parses, checks the signature, then the time
    window) and the library's documented errors: [JsonWebTokenError] for a
    token that does not parse or verify, [NotBeforeError] for one not yet
    active, [TokenExpiredError] for one at or past its expiry.  A token
    here is six dot-separated fields: the two payload strings, the three
    registered claims, and a keyed tag over the first five. *)

Definition hexDigit (n : nat) : ascii :=
  nth n (list_ascii_of_string "0123456789abcdef") "0"%char.

Definition hexValue (c : ascii) : option nat :=
  let n := Js.code c in
  if ((48 <=? n) && (n <=? 57))%nat then Some (n - 48)
  else if ((97 <=? n) && (n <=? 102))%nat then Some (n - 87)
  else None.

Fixpoint hexEncode (s : string) : string :=
  match s with
  | EmptyString => EmptyString
  | String c r =>
      String (hexDigit (Js.code c / 16))
        (String (hexDigit (Js.code c mod 16)) (hexEncode r))
  end.

Fixpoint hexDecode (s : string) : option string :=
  match s with
  | EmptyString => Some EmptyString
  | String a (String b r) =>
      match hexValue a, hexValue b, hexDecode r with
      | Some x, Some y, Some t => Some (String (ascii_of_nat (16 * x + y)) t)
      | _, _, _ => None
      end
  | String _ EmptyString => None
  end.

Definition ofNumericDate (z : option Z) : string :=
  match z with
  | Some n => HexString.of_Z n
  | None => EmptyString
  end.

Definition toNumericDate (s : string) : option Z :=
  if s =? EmptyString then None else Some (HexString.to_Z s).

Definition fields (c : Claims) : list string :=
  [hexEncode (userId (payload c)); hexEncode (payload_email (payload c));
   hexEncode (HexString.of_Z (iat c)); hexEncode (ofNumericDate (nbf c));
   hexEncode (ofNumericDate (exp c))].

(** The keyed tag of a signing input. *)
Definition tag (secret input : string) : string :=
  hexEncode secret ++ "-" ++ hexEncode input.

(** The token carrying claims [c] under [secret]. *)
Definition encode (secret : string) (c : Claims) : string :=
  String.concat "." (fields c ++ [tag secret (String.concat "." (fields c))]).

Definition jwtError (nm msg : string) : JsError :=
  {| err_name := nm; err_message := msg;
     err_code := None; err_errors := [] |}.

(** Modelled from the spec: [issue(subjectId, subjectEmail, ttl)], with
    issued-at the clock and expiry the clock plus [ttl]. *)
Definition sign (p : TokenPayload) (secret : string) (expiresIn : TimeSpan)
    (w : World) : Outcome string :=
  Returned (encode secret {| payload := p; iat := now w; nbf := None;
                             exp := Some (now w + seconds expiresIn)%Z |}).

(** Modelled from the spec: [verify(tokenString)], parse, then signature,
    then expiry against the clock; before the expiry check comes
    jsonwebtoken's own check of the not-before instant. *)
Definition verify (token secret : string) (w : World) : Outcome Claims :=
  match Js.split "." token with
  | [a; b; c; d; e; sig] =>
      match hexDecode a, hexDecode b, hexDecode c, hexDecode d, hexDecode e with
      | Some uid, Some em, Some i, Some n, Some x =>
          if negb (sig =? tag secret (String.concat "." [a; b; c; d; e])) then
            Thrown (jwtError "JsonWebTokenError" "invalid signature")
          else
            let claims := {| payload := {| userId := uid; payload_email := em |};
                             iat := HexString.to_Z i;
                             nbf := toNumericDate n;
                             exp := toNumericDate x |} in
            if match nbf claims with
               | Some t => (now w <? t)%Z
               | None => false
               end
            then Thrown (jwtError "NotBeforeError" "jwt not active")
            else if match exp claims with
                    | Some t => (t <=? now w)%Z
                    | None => false
                    end
            then Thrown (jwtError "TokenExpiredError" "jwt expired")
            else Returned claims
      | _, _, _, _, _ => Thrown (jwtError "JsonWebTokenError" "invalid token")
      end
  | _ => Thrown (jwtError "JsonWebTokenError" "jwt malformed")
  end.

Definition lib : jwt.lib World :=
  {| jwt.sign := sign; jwt.verify := verify |}.

End Jwt.

(* ================================================================== *)
(** * Vocabulary of the statements *)
(* ================================================================== *)

(** A field that is absent or empty: what [!x] holds of. *)
Definition missing (x : option string) : Prop :=
  x = None \/ x = Some EmptyString.

(** The response envelope: a boolean [success] on top, with a [message]
    string when it is false and a [data] payload when it is true. *)
Definition envelope (r : Response) : Prop :=
  match field "success" (body r) with
  | Some (JBool true) => exists d, field "data" (body r) = Some d
  | Some (JBool false) => exists m, field "message" (body r) = Some (JStr m)
  | _ => False
  end.

(** What happens to a deployed router, one event after another. *)
Inductive Call : Type :=
| Register (req : Request)
| Login (req : Request)
| Me (req : Request)
| Wait (dt : Z).

Definition step (r : Router World) (w : World) (c : Call) : World :=
  match c with
  | Register req => snd (post_register r req w)
  | Login req => snd (post_login r req w)
  | Me req => snd (get_me r req w)
  | Wait dt => {| users := users w; now := (now w + dt)%Z |}
  end.

Definition serve (r : Router World) (calls : list Call) (w : World) : World :=
  fold_left (step r) calls w.


(* ================================================================== *)
(** * Named responses and sample data *)
(* ================================================================== *)

Definition missingHeader : Response :=
  failure 401 (Some "Authorization header is required").

Definition malformedHeader : Response :=
  failure 401 (Some "Invalid authorization header format. Use: Bearer <token>").

Definition invalidCredentials : Response :=
  failure 401 (Some "Invalid email or password").

Definition missingFields : Response :=
  failure 400 (Some "Name, email, and password are required").

Definition duplicateEmail : Response :=
  failure 400 (Some "Email already exists").

(** A string that does not start with white space. *)
Definition trimmedStart (s : string) : Prop :=
  match s with
  | EmptyString => True
  | String c _ => Js.isWhiteSpace c = false
  end.

(** The document [Directory.create] stores for a registration. *)
Definition created (req : Request) (hashed : string) (w : World) : Account :=
  {| Account._id := Directory.freshId w;
     Account.name := Js.trim (str (body_name req));
     Account.email := normalizeEmail (str (body_email req));
     Account.password := hashed;
     Account.createdAt := now w;
     Account.updatedAt := now w |}.

Definition world0 : World := {| users := []; now := 1000 |}.

Definition alice : Account :=
  {| Account._id := "0x0"; Account.name := "Jo"; Account.email := "a@b.com";
     Account.password := "$2a$Secure123!"; Account.createdAt := 1000;
     Account.updatedAt := 1000 |}.

Definition world1 : World := {| users := [alice]; now := 1000 |}.

Definition options0 : Options :=
  {| Options.secret := Some "s3cret"; Options.expiresIn := None;
     Options.bcryptRounds := None |}.

Definition noSecret : Options :=
  {| Options.secret := Some EmptyString; Options.expiresIn := Some (Hours 1);
     Options.bcryptRounds := None |}.

Definition bearerRequest (header : option string) : Request :=
  {| authorization := header; body_name := None; body_email := None;
     body_password := None |}.

Definition loginRequest (e p : string) : Request :=
  {| authorization := None; body_name := None; body_email := Some e;
     body_password := Some p |}.

Definition registerRequest (n e p : string) : Request :=
  {| authorization := None; body_name := Some n; body_email := Some e;
     body_password := Some p |}.

Definition registerJo : Request :=
  {| authorization := None; body_name := Some "Jo";
     body_email := Some "A@B.com "; body_password := Some "Secure123!" |}.

Definition inactiveClaims : Claims :=
  {| payload := {| userId := "7"; payload_email := "a@b.com" |};
     iat := 0; nbf := Some 2000%Z; exp := Some 3000%Z |}.

Definition staleInactiveClaims : Claims :=
  {| payload := {| userId := "7"; payload_email := "a@b.com" |};
     iat := 0; nbf := Some 2000%Z; exp := Some 500%Z |}.

Definition staleClaims : Claims :=
  {| payload := {| userId := "7"; payload_email := "a@b.com" |};
     iat := 0; nbf := None; exp := Some 500%Z |}.

Definition router0 : Router World :=
  {| post_register := register Directory.model Bcrypt.lib 14;
     post_login := login Directory.model Bcrypt.lib Jwt.lib "s3cret" (Hours 24);
     get_me := guarded (authHandler Jwt.lib "s3cret") (me Directory.model) |}.

Definition tokenOf (r : Response) : string :=
  match field "data" (body r) with
  | Some data =>
      match field "token" data with
      | Some (JStr t) => t
      | _ => EmptyString
      end
  | None => EmptyString
  end.

(** The key [k] occurs somewhere in [j], at any depth. *)
Fixpoint mentions (k : string) (j : Json) : bool :=
  match j with
  | JObj fields =>
      existsb (fun kv => let '(k', v) := kv in (k' =? k) || mentions k v) fields
  | _ => false
  end.

(** A directory as one registration sees it when another one, for the
    same email, lands between its lookup and its creation: the lookup
    finds nothing and the unique index rejects the creation. *)
Definition racingDirectory : User.model World :=
  {| User.findOne := fun _ _ => Returned None;
     User.findById := Directory.findById;
     User.create := fun _ w => (Thrown Directory.duplicateKey, w) |}.

(** The number of occurrences of [c] in [s]. *)
Fixpoint count (c : ascii) (s : string) : nat :=
  match s with
  | EmptyString => 0
  | String d r => (if Ascii.eqb d c then 1 else 0) + count c r
  end.

(** The directory before anything was stored, the clock at [t0]. *)
Definition emptyWorld (t0 : Z) : World := {| users := []; now := t0 |}.

(** The ids of the stored accounts are the numbers below their count, in
    order of creation. *)
Definition wellNumbered (w : World) : Prop :=
  map Account._id (users w)
  = map HexString.of_nat (seq 0 (List.length (users w))).

(** Unique emails and creation-order ids, kept by every registration. *)
Definition sound (w : World) : Prop :=
  NoDup (map Account.email (users w)) /\ wellNumbered w.

(** A response without a property named [password], at any depth. *)
Definition withoutPassword (r : Response) : Prop :=
  mentions "password" (body r) = false.

(* ================================================================== *)
(** * The wording of the header and email properties *)
(* ================================================================== *)

(** The headers whose remainder reaches verification: the literal
    [Bearer], one space, and a remainder [t] in which no space occurs.
    The remainder may be empty: [Bearer] followed by one space is such a
    header, and its token is the empty string. *)
Definition bearerHeader (h t : string) : Prop :=
  h = "Bearer " ++ t /\ ~ Js.occurs " " t.









(* ================================================================== *)
(** * Properties *)
(* ================================================================== *)


(** ** [split] *)

Lemma split_nonempty (sep : ascii) (s : string) : Js.split sep s <> [].
Proof.
  destruct s as [|c r]; simpl; [discriminate |].
  destruct (Ascii.eqb c sep); [discriminate |].
  destruct (Js.split sep r); discriminate.
Qed.

Lemma concat_cons (sep a : string) (l : list string) :
  l <> [] -> String.concat sep (a :: l) = a ++ sep ++ String.concat sep l.
Proof. destruct l; [congruence | reflexivity]. Qed.

(** Joining the parts with the separator gives the string back. *)
Lemma split_concat (sep : ascii) (s : string) :
  String.concat (String sep EmptyString) (Js.split sep s) = s.
Proof.
  induction s as [|c r IH]; simpl; [reflexivity |].
  destruct (Ascii.eqb_spec c sep) as [->|Hne].
  - rewrite concat_cons by apply split_nonempty. simpl. now rewrite IH.
  - pose proof (split_nonempty sep r) as Hn.
    destruct (Js.split sep r) as [|h t]; [congruence |].
    destruct t as [|h' t].
    + simpl in *. now rewrite IH.
    + rewrite concat_cons by discriminate.
      rewrite concat_cons in IH by discriminate.
      rewrite <- IH. reflexivity.
Qed.

(** No part contains the separator. *)
Lemma split_parts (sep : ascii) (s : string) :
  Forall (fun part => ~ Js.occurs sep part) (Js.split sep s).
Proof.
  induction s as [|c r IH]; simpl.
  - constructor; [intros [] | constructor].
  - destruct (Ascii.eqb_spec c sep) as [->|Hne].
    + constructor; [intros [] | exact IH].
    + destruct (Js.split sep r) as [|h t]; [repeat constructor |].
      * intros [H|[]]. congruence.
      * inversion IH as [|? ? Hh Ht]; subst. constructor; [| exact Ht].
        intros [H|H]; [congruence | exact (Hh H)].
Qed.

Lemma split_none (sep : ascii) (a : string) :
  ~ Js.occurs sep a -> Js.split sep a = [a].
Proof.
  induction a as [|c r IH]; simpl; intros H; [reflexivity |].
  destruct (Ascii.eqb_spec c sep) as [->|Hne].
  - exfalso. apply H. now left.
  - rewrite IH; [reflexivity |]. intros Hr. apply H. now right.
Qed.

Lemma split_app (sep : ascii) (a b : string) :
  ~ Js.occurs sep a ->
  Js.split sep (a ++ String sep b) = a :: Js.split sep b.
Proof.
  induction a as [|c r IH]; simpl; intros H.
  - now rewrite Ascii.eqb_refl.
  - destruct (Ascii.eqb_spec c sep) as [->|Hne].
    + exfalso. apply H. now left.
    + rewrite IH; [reflexivity |]. intros Hr. apply H. now right.
Qed.

(** [split] yields two parts exactly on the two-token strings. *)
Lemma split_two (h a b : string) :
  Js.split " " h = [a; b] <-> twoTokens h a b.
Proof.
  unfold twoTokens. split.
  - intros H. pose proof (split_concat " " h) as Hc.
    pose proof (split_parts " " h) as Hp. rewrite H in Hc, Hp.
    apply Forall_cons_iff in Hp. destruct Hp as [Ha Hp].
    apply Forall_cons_iff in Hp. destruct Hp as [Hb _].
    simpl in Hc. auto.
  - intros [-> [Ha Hb]]. simpl. rewrite split_app by assumption.
    now rewrite split_none.
Qed.

(** ** Regular expression classes *)

Lemma test_exists (cls : list Js.ClassAtom) (s : string) :
  Js.test cls s = true <->
  exists c, In c (list_ascii_of_string s) /\ Js.class_matches cls c = true.
Proof. unfold Js.test. apply existsb_exists. Qed.

Lemma range_matches (lo hi c : ascii) :
  Js.class_matches [Js.CRange lo hi] c = true <->
  Js.code lo <= Js.code c <= Js.code hi.
Proof.
  unfold Js.class_matches. simpl. rewrite orb_false_r, andb_true_iff.
  rewrite !Nat.leb_le. tauto.
Qed.

Lemma chars_match (l : list ascii) (c : ascii) :
  Js.class_matches (map Js.CChar l) c = true <-> In c l.
Proof.
  unfold Js.class_matches. induction l as [|d l IH]; simpl.
  - split; [discriminate | tauto].
  - rewrite orb_true_iff, IH, Ascii.eqb_eq. split; intros [H|H]; auto.
Qed.

Lemma test_contains (cls : list Js.ClassAtom) (P : ascii -> Prop) (s : string) :
  (forall c, Js.class_matches cls c = true <-> P c) ->
  (Js.test cls s = true <-> Policy.contains P s).
Proof.
  intros HP. rewrite test_exists. unfold Policy.contains.
  split; intros [c [Hin Hc]]; exists c; split; auto; apply HP; assumption.
Qed.

Lemma test_upper p : Js.test reUpper p = true <-> Policy.hasUpper p.
Proof. apply test_contains. intros c. apply (range_matches "A" "Z"). Qed.

Lemma test_lower p : Js.test reLower p = true <-> Policy.hasLower p.
Proof. apply test_contains. intros c. apply (range_matches "a" "z"). Qed.

Lemma test_digit p : Js.test reDigit p = true <-> Policy.hasDigit p.
Proof. apply test_contains. intros c. apply (range_matches "0" "9"). Qed.

Lemma test_special p : Js.test reSpecial p = true <-> Policy.hasSpecial p.
Proof. apply test_contains. intros c. apply chars_match. Qed.

Lemma length_test p : (String.length p <? 8)%nat = false <-> Policy.longEnough p.
Proof. unfold Policy.longEnough. rewrite Nat.ltb_ge. tauto. Qed.

(** A rejected password always comes with its reason. *)
Lemma invalid_has_message (p : string) :
  isValid (validatePassword p) = false ->
  exists msg, message (validatePassword p) = Some msg.
Proof.
  unfold validatePassword.
  repeat match goal with
         | |- context [if ?b then _ else _] => destruct b
         end; simpl; intros H; try discriminate; eauto.
Qed.

(** C3.  [validatePassword] accepts exactly the passwords that satisfy
    the five rules of the policy (at least 8 code units, an uppercase
    letter, a lowercase letter, a digit, a special character), and a
    rejected password is reported with the reason of the first rule, in
    that order, that it breaks. *)
Theorem validatePassword_policy (p : string) :
  (isValid (validatePassword p) = true <-> Policy.satisfied p) /\
  (~ Policy.longEnough p ->
     validatePassword p =
     invalid "Password must be at least 8 characters long") /\
  (Policy.longEnough p -> ~ Policy.hasUpper p ->
     validatePassword p =
     invalid "Password must contain at least one uppercase letter") /\
  (Policy.longEnough p -> Policy.hasUpper p -> ~ Policy.hasLower p ->
     validatePassword p =
     invalid "Password must contain at least one lowercase letter") /\
  (Policy.longEnough p -> Policy.hasUpper p -> Policy.hasLower p ->
   ~ Policy.hasDigit p ->
     validatePassword p =
     invalid "Password must contain at least one number") /\
  (Policy.longEnough p -> Policy.hasUpper p -> Policy.hasLower p ->
   Policy.hasDigit p -> ~ Policy.hasSpecial p ->
     validatePassword p =
     invalid "Password must contain at least one special character") /\
  (Policy.satisfied p ->
     validatePassword p = {| isValid := true; message := None |}).
Proof.
  unfold Policy.satisfied.
  rewrite <- length_test, <- test_upper, <- test_lower, <- test_digit,
          <- test_special.
  unfold validatePassword.
  destruct (String.length p <? 8)%nat; simpl.
  { repeat split; intros; try reflexivity; intuition congruence. }
  destruct (Js.test reUpper p); simpl.
  2:{ repeat split; intros; try reflexivity; intuition congruence. }
  destruct (Js.test reLower p); simpl.
  2:{ repeat split; intros; try reflexivity; intuition congruence. }
  destruct (Js.test reDigit p); simpl.
  2:{ repeat split; intros; try reflexivity; intuition congruence. }
  destruct (Js.test reSpecial p); simpl.
  2:{ repeat split; intros; try reflexivity; intuition congruence. }
  repeat split; intros; try reflexivity; intuition congruence.
Qed.

Lemma validatePassword_policy_witness :
  Policy.satisfied "Secure123!" /\
  validatePassword "Secure123!" = {| isValid := true; message := None |}.
Proof.
  assert (H : Policy.satisfied "Secure123!").
  { apply (proj1 (validatePassword_policy "Secure123!")). reflexivity. }
  split; [exact H |].
  apply (proj2 (proj2 (proj2 (proj2 (proj2 (proj2
          (validatePassword_policy "Secure123!"))))))).
  exact H.
Defined.

(* ================================================================== *)
(** * The reference jsonwebtoken *)
(* ================================================================== *)

Lemma occurs_app (c : ascii) (a b : string) :
  Js.occurs c (a ++ b) <-> Js.occurs c a \/ Js.occurs c b.
Proof.
  unfold Js.occurs. induction a as [|x a IH]; simpl; [tauto |].
  rewrite IH. tauto.
Qed.

Lemma occurs_concat (c : ascii) (sep : string) (l : list string) :
  Js.occurs c (String.concat sep l) ->
  Js.occurs c sep \/ Exists (Js.occurs c) l.
Proof.
  induction l as [|a l IH]; [intros [] |].
  destruct l as [|b l].
  - simpl. intros H. right. now constructor.
  - rewrite concat_cons by discriminate. rewrite !occurs_app.
    intros [H|[H|H]]; auto.
    destruct (IH H) as [H'|H']; auto.
Qed.

(** Splitting a joined list of separator-free parts gives the parts. *)
Lemma split_of_concat (sep : ascii) (l : list string) :
  l <> [] -> Forall (fun part => ~ Js.occurs sep part) l ->
  Js.split sep (String.concat (String sep EmptyString) l) = l.
Proof.
  induction l as [|a l IH]; [congruence |]. intros _ Hl.
  apply Forall_cons_iff in Hl. destruct Hl as [Ha Hl].
  destruct l as [|b l].
  - simpl. now apply split_none.
  - rewrite concat_cons by discriminate.
    change (String sep EmptyString ++ String.concat (String sep EmptyString) (b :: l))
      with (String sep (String.concat (String sep EmptyString) (b :: l))).
    rewrite split_app by assumption.
    rewrite IH; [reflexivity | discriminate | assumption].
Qed.

Lemma hexDigit_value (n : nat) : Jwt.hexValue (Jwt.hexDigit n) <> None.
Proof.
  do 16 (destruct n as [|n]; [discriminate |]).
  destruct n; discriminate.
Qed.

Lemma hexEncode_chars (c : ascii) (s : string) :
  Js.occurs c (Jwt.hexEncode s) -> Jwt.hexValue c <> None.
Proof.
  unfold Js.occurs. induction s as [|x s IH]; simpl; [tauto |].
  intros [<-|[<-|H]]; auto using hexDigit_value.
Qed.

Lemma hex_char (c : ascii) :
  Jwt.hexValue (Jwt.hexDigit (Js.code c / 16)) = Some (Js.code c / 16) /\
  Jwt.hexValue (Jwt.hexDigit (Js.code c mod 16)) = Some (Js.code c mod 16) /\
  ascii_of_nat (16 * (Js.code c / 16) + Js.code c mod 16) = c.
Proof.
  destruct c as [[] [] [] [] [] [] [] []]; vm_compute; auto.
Qed.

Lemma hexDecode_hexEncode (s : string) :
  Jwt.hexDecode (Jwt.hexEncode s) = Some s.
Proof.
  induction s as [|c s IH]; [reflexivity |].
  destruct (hex_char c) as [Hh [Hl Hc]].
  cbn [Jwt.hexEncode Jwt.hexDecode]. rewrite Hh, Hl, IH, Hc. reflexivity.
Qed.

Lemma toNumericDate_of (z : option Z) :
  Jwt.toNumericDate (Jwt.ofNumericDate z) = z.
Proof.
  destruct z as [n|]; [| reflexivity].
  unfold Jwt.toNumericDate, Jwt.ofNumericDate.
  rewrite HexString.to_Z_of_Z.
  destruct n; reflexivity.
Qed.

Lemma tag_chars (c : ascii) (secret input : string) :
  Js.occurs c (Jwt.tag secret input) -> c = "-"%char \/ Jwt.hexValue c <> None.
Proof.
  unfold Jwt.tag. rewrite !occurs_app.
  intros [H|[[H|[]]|H]]; eauto using hexEncode_chars.
Qed.

(** The characters of a token are hexadecimal digits, dots and a dash. *)
Lemma encode_chars (c : ascii) (secret : string) (cl : Claims) :
  Js.occurs c (Jwt.encode secret cl) ->
  c = "."%char \/ c = "-"%char \/ Jwt.hexValue c <> None.
Proof.
  unfold Jwt.encode. intros H. apply occurs_concat in H.
  destruct H as [[H|[]]|H]; [now left |].
  right. unfold Jwt.fields in H. simpl in H.
  repeat match goal with
         | H : Exists _ (_ :: _) |- _ => apply Exists_cons in H; destruct H as [H|H]
         | H : Exists _ [] |- _ => inversion H
         end; eauto using hexEncode_chars, tag_chars.
Qed.

Lemma encode_no_space (secret : string) (cl : Claims) :
  ~ Js.occurs " " (Jwt.encode secret cl).
Proof.
  intros H. apply encode_chars in H.
  destruct H as [H|[H|H]]; [discriminate | discriminate |].
  apply H. reflexivity.
Qed.

Lemma split_encode (secret : string) (cl : Claims) :
  Js.split "." (Jwt.encode secret cl) =
  (Jwt.fields cl ++ [Jwt.tag secret (String.concat "." (Jwt.fields cl))])%list.
Proof.
  unfold Jwt.encode. apply split_of_concat; [discriminate |].
  assert (Hhex : forall s, ~ Js.occurs "." (Jwt.hexEncode s)).
  { intros s H. apply hexEncode_chars in H. apply H. reflexivity. }
  unfold Jwt.fields. simpl. repeat constructor; auto.
  intros H. apply tag_chars in H. destruct H as [H|H]; [discriminate |].
  apply H. reflexivity.
Qed.

(** What [verify] does with a token made under the same secret: the
    checks on [nbf] and [exp], in that order. *)
Lemma verify_encode (secret : string) (cl : Claims) (w : World) :
  Jwt.verify (Jwt.encode secret cl) secret w =
  if match nbf cl with Some t => (now w <? t)%Z | None => false end
  then Thrown (Jwt.jwtError "NotBeforeError" "jwt not active")
  else if match exp cl with Some t => (t <=? now w)%Z | None => false end
  then Thrown (Jwt.jwtError "TokenExpiredError" "jwt expired")
  else Returned cl.
Proof.
  unfold Jwt.verify. rewrite split_encode. unfold Jwt.fields. cbn [app].
  rewrite !hexDecode_hexEncode. rewrite String.eqb_refl. cbn [negb].
  cbn [nbf exp]. rewrite !toNumericDate_of, HexString.to_Z_of_Z.
  destruct cl as [[uid em] i n x]. reflexivity.
Qed.

(* ================================================================== *)
(** * The auth gate *)
(* ================================================================== *)

Section Gate.

Context {W : Type}.
Variable J : jwt.lib W.

Lemma authHandler_missing (secret : string) (req : Request) (w : W) :
  authorization req = None \/ authorization req = Some EmptyString ->
  authHandler J secret req w = Respond missingHeader.
Proof.
  unfold authHandler. intros [-> | ->]; reflexivity.
Qed.

Lemma authHandler_bearer (secret : string) (req : Request) (w : W)
    (h t : string) :
  authorization req = Some h -> twoTokens h "Bearer" t ->
  authHandler J secret req w = verdict J secret t w.
Proof.
  intros Hh Ht. unfold authHandler. rewrite Hh.
  assert (Hs : Js.split " " h = ["Bearer"; t]) by now apply split_two.
  assert (Hne : (h =? EmptyString) = false).
  { destruct Ht as [-> _]. reflexivity. }
  cbn [Js.truthy str orDefault]. rewrite Hne, Hs. reflexivity.
Qed.

Lemma authHandler_malformed (secret : string) (req : Request) (w : W)
    (h : string) :
  authorization req = Some h -> h <> EmptyString ->
  (forall t, ~ twoTokens h "Bearer" t) ->
  authHandler J secret req w = Respond malformedHeader.
Proof.
  intros Hh Hne Hno. unfold authHandler. rewrite Hh.
  cbn [Js.truthy str orDefault].
  destruct (String.eqb_spec h EmptyString) as [|_]; [contradiction |].
  cbn [negb].
  destruct (Js.split " " h) as [|a [|b [|c l]]] eqn:Hs; try reflexivity.
  cbn [List.length Nat.eqb negb orb nth_error strictEq].
  destruct (String.eqb_spec a "Bearer") as [->|_]; [| reflexivity].
  exfalso. apply (Hno b). now apply split_two.
Qed.

(** The [catch] clause always answers 401. *)
Lemma authCatch_status (error : JsError) : status (authCatch error) = 401.
Proof.
  unfold authCatch.
  destruct (err_name error =? "JsonWebTokenError");
    [| destruct (err_name error =? "TokenExpiredError")]; reflexivity.
Qed.

Lemma authHandler_cases (secret : string) (req : Request) (w : W) :
  authHandler J secret req w = Respond missingHeader \/
  authHandler J secret req w = Respond malformedHeader \/
  exists t, authHandler J secret req w = verdict J secret t w.
Proof.
  unfold authHandler.
  destruct (negb (Js.truthy (authorization req))); [now left |].
  match goal with
  | |- context [if ?b then _ else _] => destruct b
  end; [right; now left |].
  right; right. eexists. reflexivity.
Qed.

End Gate.

Lemma bearerHeader_twoTokens (h t : string) :
  bearerHeader h t <-> twoTokens h "Bearer" t.
Proof.
  unfold bearerHeader, twoTokens. split.
  - intros [-> Ht]. split; [reflexivity |]. split; [| exact Ht].
    unfold Js.occurs. simpl. intuition discriminate.
  - intros [-> [_ Ht]]. split; [reflexivity | exact Ht].
Qed.

(** C4, as stated, fails on two headers.  A header that is present but
    empty is not two space-separated tokens, yet the gate answers that the
    header is required, not that its format is invalid.  And the header
    [Bearer] followed by one space holds one token, not two (it cannot be
    cut into two non-empty parts around a space), yet it is not answered
    as a malformed header: the empty string is handed to [jwt.verify] as
    the token, and the answer is the verifier's, "Invalid token". *)
Lemma authHandler_empty_header_counterexample :
  (authorization (bearerRequest (Some EmptyString)) <> None /\
   (forall t, ~ twoTokens EmptyString "Bearer" t) /\
   authHandler Jwt.lib "s3cret" (bearerRequest (Some EmptyString)) world0
     = Respond missingHeader /\
   authHandler Jwt.lib "s3cret" (bearerRequest (Some EmptyString)) world0
     <> Respond malformedHeader) /\
  ((forall a b, a <> EmptyString -> b <> EmptyString ->
      ~ twoTokens "Bearer " a b) /\
   authHandler Jwt.lib "s3cret" (bearerRequest (Some "Bearer ")) world0
     = verdict Jwt.lib "s3cret" EmptyString world0 /\
   authHandler Jwt.lib "s3cret" (bearerRequest (Some "Bearer ")) world0
     = Respond (failure 401 (Some "Invalid token")) /\
   authHandler Jwt.lib "s3cret" (bearerRequest (Some "Bearer ")) world0
     <> Respond malformedHeader).
Proof.
  split.
  - split; [discriminate |]. split.
    + intros t [H _]. discriminate H.
    + split; [reflexivity | discriminate].
  - split.
    + intros a b Ha Hb Ht. apply split_two in Ht. simpl in Ht.
      inversion Ht. congruence.
    + repeat split; try reflexivity. discriminate.
Qed.

(** C4, amended.  The gate answers 401 "Authorization header is required"
    when the header is absent or empty; 401 "Invalid authorization header
    format" when it is non-empty but is not the literal [Bearer], one
    space and a remainder without a space; and only otherwise hands the
    remainder to [jwt.verify], whose outcome decides.  The remainder may
    be empty: [Bearer] followed by one space is not rejected for its
    format, the empty token is verified. *)
Theorem authHandler_header {W : Type} (J : jwt.lib W) (secret : string)
    (req : Request) (w : W) :
  (authorization req = None \/ authorization req = Some EmptyString ->
     authHandler J secret req w = Respond missingHeader) /\
  (forall h, authorization req = Some h -> h <> EmptyString ->
     (forall t, ~ bearerHeader h t) ->
     authHandler J secret req w = Respond malformedHeader) /\
  (forall h t, authorization req = Some h -> bearerHeader h t ->
     authHandler J secret req w = verdict J secret t w) /\
  (authorization req = Some "Bearer " ->
     authHandler J secret req w = verdict J secret EmptyString w).
Proof.
  split; [apply authHandler_missing |].
  split; [| split].
  - intros h Hh Hne Hno. apply (authHandler_malformed J secret req w h Hh Hne).
    intros t Ht. apply (Hno t). now apply bearerHeader_twoTokens.
  - intros h t Hh Ht. apply (authHandler_bearer J secret req w h t Hh).
    now apply bearerHeader_twoTokens.
  - intros Hh. apply (authHandler_bearer J secret req w "Bearer " EmptyString Hh).
    apply bearerHeader_twoTokens. split; [reflexivity | intros []].
Qed.

Lemma authHandler_header_witness :
  authHandler Jwt.lib "s3cret" (bearerRequest (Some "Token xyz")) world0
  = Respond malformedHeader /\
  authHandler Jwt.lib "s3cret" (bearerRequest (Some "Bearer ")) world0
  = verdict Jwt.lib "s3cret" EmptyString world0.
Proof.
  split.
  - apply (proj1 (proj2 (authHandler_header Jwt.lib "s3cret"
                           (bearerRequest (Some "Token xyz")) world0))
             "Token xyz").
    + reflexivity.
    + discriminate.
    + intros t [H _]. discriminate H.
  - apply (proj2 (proj2 (proj2 (authHandler_header Jwt.lib "s3cret"
                                  (bearerRequest (Some "Bearer ")) world0)))).
    reflexivity.
Defined.

Lemma bearer_header (secret : string) (cl : Claims) :
  twoTokens ("Bearer " ++ Jwt.encode secret cl) "Bearer" (Jwt.encode secret cl).
Proof.
  split; [reflexivity |]. split; [| apply encode_no_space].
  unfold Js.occurs. simpl. intuition discriminate.
Qed.

(** C10.  When [jwt.verify] throws an error named neither
    [JsonWebTokenError] nor [TokenExpiredError], the gate answers 401
    "Authentication failed"; and every answer of the gate, whatever was
    thrown, has status 401. *)
Theorem authHandler_other_errors {W : Type} (J : jwt.lib W) (secret : string)
    (req : Request) (w : W) :
  (forall h t error,
     authorization req = Some h -> twoTokens h "Bearer" t ->
     jwt.verify J t secret w = Thrown error ->
     err_name error <> "JsonWebTokenError" ->
     err_name error <> "TokenExpiredError" ->
     authHandler J secret req w
       = Respond (failure 401 (Some "Authentication failed"))) /\
  (forall r, authHandler J secret req w = Respond r -> status r = 401).
Proof.
  split.
  - intros h t error Hh Ht Hv Hn1 Hn2.
    rewrite (authHandler_bearer J secret req w h t Hh Ht).
    unfold verdict. rewrite Hv. unfold authCatch.
    apply String.eqb_neq in Hn1, Hn2. now rewrite Hn1, Hn2.
  - intros r Hr.
    destruct (authHandler_cases J secret req w) as [H|[H|[t H]]];
      rewrite H in Hr.
    + now inversion Hr.
    + now inversion Hr.
    + unfold verdict in Hr. destruct (jwt.verify J t secret w); [discriminate |].
      inversion Hr. apply authCatch_status.
Qed.

Lemma authHandler_other_errors_witness :
  authHandler Jwt.lib "s3cret"
    (bearerRequest (Some ("Bearer " ++ Jwt.encode "s3cret" inactiveClaims)))
    world0
  = Respond (failure 401 (Some "Authentication failed")).
Proof.
  apply (proj1 (authHandler_other_errors Jwt.lib "s3cret"
                  (bearerRequest
                     (Some ("Bearer " ++ Jwt.encode "s3cret" inactiveClaims)))
                  world0)
           ("Bearer " ++ Jwt.encode "s3cret" inactiveClaims)
           (Jwt.encode "s3cret" inactiveClaims)
           (Jwt.jwtError "NotBeforeError" "jwt not active")).
  - reflexivity.
  - apply bearer_header.
  - vm_compute. reflexivity.
  - discriminate.
  - discriminate.
Defined.

(** C7, as stated, fails on a token signed with the gate's secret whose
    expiry (500) is behind the clock (1000) but whose not-before instant
    (2000) is still ahead: [jwt.verify] throws [NotBeforeError], a third
    kind of error, and the gate answers neither "Token has expired" nor
    "Invalid token". *)
Lemma expired_token_counterexample :
  exp staleInactiveClaims = Some 500%Z /\
  (500 <= now world0)%Z /\
  jwt.verify Jwt.lib (Jwt.encode "s3cret" staleInactiveClaims) "s3cret" world0
    = Thrown (Jwt.jwtError "NotBeforeError" "jwt not active") /\
  authHandler Jwt.lib "s3cret"
    (bearerRequest
       (Some ("Bearer " ++ Jwt.encode "s3cret" staleInactiveClaims))) world0
    = Respond (failure 401 (Some "Authentication failed")) /\
  authHandler Jwt.lib "s3cret"
    (bearerRequest
       (Some ("Bearer " ++ Jwt.encode "s3cret" staleInactiveClaims))) world0
    <> Respond (failure 401 (Some "Token has expired")).
Proof.
  split; [reflexivity |]. split; [vm_compute; discriminate |].
  split; [vm_compute; reflexivity |].
  split; [vm_compute; reflexivity | vm_compute; discriminate].
Qed.

(** The reference verifier throws errors of three names, and the
    [catch] clause of the gate has one answer for each. *)
Lemma verify_errors (token secret : string) (w : World) (error : JsError) :
  Jwt.verify token secret w = Thrown error ->
  (err_name error = "JsonWebTokenError" /\
   authCatch error = failure 401 (Some "Invalid token")) \/
  (err_name error = "TokenExpiredError" /\
   authCatch error = failure 401 (Some "Token has expired")) \/
  (err_name error = "NotBeforeError" /\
   authCatch error = failure 401 (Some "Authentication failed")).
Proof.
  unfold Jwt.verify.
  repeat match goal with
         | |- context [match ?x with _ => _ end] => destruct x
         end;
    intros H; inversion H; subst; clear H; auto.
Qed.

(** C7, amended.  A token signed with the gate's secret, already active
    (no not-before instant ahead of the clock) and with its expiry at or
    before the clock is rejected with 401 "Token has expired", never with
    "Invalid token".  The gate tells three kinds of verifier errors apart,
    not two: an error of any other name, such as [NotBeforeError], gets
    "Authentication failed". *)
Theorem expired_token_rejected (secret : string) :
  (forall (cl : Claims) (t : Z) (req : Request) (w : World),
     exp cl = Some t -> (t <= now w)%Z ->
     (forall n, nbf cl = Some n -> (n <= now w)%Z) ->
     authorization req = Some ("Bearer " ++ Jwt.encode secret cl) ->
     authHandler Jwt.lib secret req w
       = Respond (failure 401 (Some "Token has expired")) /\
     authHandler Jwt.lib secret req w
       <> Respond (failure 401 (Some "Invalid token"))) /\
  (forall (token : string) (w : World) (error : JsError),
     jwt.verify Jwt.lib token secret w = Thrown error ->
     (err_name error = "JsonWebTokenError" /\
      authCatch error = failure 401 (Some "Invalid token")) \/
     (err_name error = "TokenExpiredError" /\
      authCatch error = failure 401 (Some "Token has expired")) \/
     (err_name error = "NotBeforeError" /\
      authCatch error = failure 401 (Some "Authentication failed"))).
Proof.
  split; [| intros token w error; apply verify_errors].
  intros cl t req w Hexp Ht Hnbf Hh.
  assert (E : authHandler Jwt.lib secret req w
              = Respond (failure 401 (Some "Token has expired"))).
  { rewrite (authHandler_bearer Jwt.lib secret req w _ _ Hh
               (bearer_header secret cl)).
    unfold verdict. cbn [jwt.verify Jwt.lib]. rewrite verify_encode, Hexp.
    replace (match nbf cl with Some t0 => (now w <? t0)%Z | None => false end)
      with false.
    - apply Z.leb_le in Ht. rewrite Ht. reflexivity.
    - destruct (nbf cl) as [n|] eqn:Hn; [| reflexivity].
      symmetry. apply Z.ltb_ge. now apply Hnbf. }
  split; [exact E | rewrite E; discriminate].
Qed.

Lemma expired_token_rejected_witness :
  authHandler Jwt.lib "s3cret"
    (bearerRequest (Some ("Bearer " ++ Jwt.encode "s3cret" staleClaims)))
    world0
  = Respond (failure 401 (Some "Token has expired")).
Proof.
  apply (proj1 (expired_token_rejected "s3cret") staleClaims 500%Z
           (bearerRequest (Some ("Bearer " ++ Jwt.encode "s3cret" staleClaims)))
           world0).
  - reflexivity.
  - vm_compute. discriminate.
  - intros n H. discriminate H.
  - reflexivity.
Defined.

(** C1.  A token the login route signs for an account, presented as a
    bearer credential to a gate built with the same secret while the
    clock is still before its expiry, is accepted, and the gate attaches
    exactly the id and email that were signed. *)
Theorem issued_token_accepted (options : Options) (secret : string)
    (gate : Middleware World) (user : Account) (ttl : TimeSpan)
    (w w' : World) (token : string) (req : Request) :
  Options.secret options = Some secret ->
  authMiddleware Jwt.lib options = Returned gate ->
  jwt.sign Jwt.lib {| userId := Account._id user;
                      payload_email := Account.email user |} secret ttl w
    = Returned token ->
  (now w' < now w + seconds ttl)%Z ->
  authorization req = Some ("Bearer " ++ token) ->
  gate req w' = Next {| ReqUser.id := Account._id user;
                        ReqUser.email := Account.email user |}.
Proof.
  intros Hs Hg Hsign Hnow Hh.
  unfold authMiddleware in Hg. rewrite Hs in Hg.
  destruct (negb (Js.truthy (Some secret))); [discriminate |].
  inversion Hg; subst gate; clear Hg. cbn [str orDefault].
  cbn [jwt.sign Jwt.lib] in Hsign. unfold Jwt.sign in Hsign.
  inversion Hsign; subst token; clear Hsign.
  rewrite (authHandler_bearer Jwt.lib secret req w' _ _ Hh
             (bearer_header secret _)).
  unfold verdict. cbn [jwt.verify Jwt.lib]. rewrite verify_encode.
  cbn [nbf exp payload userId payload_email].
  apply Z.leb_gt in Hnow. rewrite Hnow. reflexivity.
Qed.

Lemma issued_token_accepted_witness :
  authHandler Jwt.lib "s3cret"
    (bearerRequest
       (Some ("Bearer " ++
              Jwt.encode "s3cret"
                {| payload := {| userId := "0x0"; payload_email := "a@b.com" |};
                   iat := 1000; nbf := None; exp := Some 87400%Z |})))
    world0
  = Next {| ReqUser.id := "0x0"; ReqUser.email := "a@b.com" |}.
Proof.
  apply (issued_token_accepted
           {| Options.secret := Some "s3cret"; Options.expiresIn := None;
              Options.bcryptRounds := None |}
           "s3cret" (authHandler Jwt.lib "s3cret") alice (Hours 24)
           world0 world0
           (Jwt.encode "s3cret"
              {| payload := {| userId := "0x0"; payload_email := "a@b.com" |};
                 iat := 1000; nbf := None; exp := Some 87400%Z |})).
  - reflexivity.
  - reflexivity.
  - reflexivity.
  - vm_compute. reflexivity.
  - reflexivity.
Defined.

(* ================================================================== *)
(** * The routes *)
(* ================================================================== *)

Lemma truthy_false (x : option string) :
  Js.truthy x = false <-> missing x.
Proof.
  unfold missing. destruct x as [s|]; simpl.
  - destruct (String.eqb_spec s EmptyString) as [->|Hne]; simpl.
    + tauto.
    + split; [discriminate |]. intros [H|H]; congruence.
  - tauto.
Qed.

Lemma truthy_true (x : option string) :
  Js.truthy x = true <-> ~ missing x.
Proof.
  rewrite <- truthy_false. destruct (Js.truthy x); split; congruence.
Qed.

Lemma envelope_failure (code : nat) (msg : string) :
  envelope (failure code (Some msg)).
Proof. unfold envelope. simpl. eauto. Qed.

Lemma envelope_success (code : nat) (msg : string) (data : Json) :
  envelope (success code msg data).
Proof. unfold envelope. simpl. eauto. Qed.

Create HintDb envelope.
#[local] Hint Resolve envelope_failure envelope_success : envelope.

Ltac run :=
  unfold register, login, me, tryCatch, registerTry, loginTry, meTry,
         bind, await, ret.

Section Routes.

Context {W : Type}.
Variable U : User.model W.
Variable B : bcrypt.lib W.
Variable J : jwt.lib W.

Lemma register_envelope (rounds : Z) (req : Request) (w : W) :
  envelope (fst (register U B rounds req w)).
Proof.
  run.
  destruct (negb (Js.truthy (body_name req)) || negb (Js.truthy (body_email req))
            || negb (Js.truthy (body_password req))); simpl; auto with envelope.
  destruct (isValid (validatePassword (str (body_password req)))) eqn:Hv; simpl.
  - destruct (User.findOne U _ w) as [[existing|]|e]; simpl.
    + auto with envelope.
    + destruct (bcrypt.hash B _ rounds w) as [h|e]; simpl.
      * destruct (User.create U _ w) as [[user|e] w']; simpl.
        -- auto with envelope.
        -- unfold registerCatch, internalError.
           repeat match goal with
                  | |- context [if ?b then _ else _] => destruct b
                  end; auto with envelope.
      * unfold registerCatch, internalError.
        repeat match goal with
               | |- context [if ?b then _ else _] => destruct b
               end; auto with envelope.
    + unfold registerCatch, internalError.
      repeat match goal with
             | |- context [if ?b then _ else _] => destruct b
             end; auto with envelope.
  - destruct (invalid_has_message _ Hv) as [msg ->]. auto with envelope.
Qed.

Lemma login_envelope (secret : string) (ttl : TimeSpan) (req : Request) (w : W) :
  envelope (fst (login U B J secret ttl req w)).
Proof.
  run. unfold internalError.
  destruct (negb (Js.truthy (body_email req))
            || negb (Js.truthy (body_password req))); simpl; auto with envelope.
  destruct (User.findOne U _ w) as [[user|]|e]; simpl; auto with envelope.
  destruct (bcrypt.compare B _ _ w) as [[|]|e]; simpl; auto with envelope.
  destruct (jwt.sign J _ secret ttl w) as [token|e]; simpl; auto with envelope.
Qed.

Lemma me_envelope (user : ReqUser) (w : W) :
  envelope (fst (me U user w)).
Proof.
  run. unfold internalError.
  destruct (User.findById U _ w) as [[found|]|e]; simpl; auto with envelope.
Qed.

Lemma authHandler_envelope (secret : string) (req : Request) (w : W)
    (r : Response) :
  authHandler J secret req w = Respond r -> envelope r.
Proof.
  intros Hr.
  destruct (authHandler_cases J secret req w) as [H|[H|[t H]]];
    rewrite H in Hr.
  - inversion Hr. apply envelope_failure.
  - inversion Hr. apply envelope_failure.
  - unfold verdict in Hr. destruct (jwt.verify J t secret w); [discriminate |].
    inversion Hr. unfold authCatch.
    repeat match goal with
           | |- context [if ?b then _ else _] => destruct b
           end; apply envelope_failure.
Qed.

(** What a successful construction gives: the handlers, closed over a
    non-empty secret. *)
Lemma createAuthRouter_returned (options : Options) (router : Router W) :
  createAuthRouter U B J options = Returned router ->
  exists s, Options.secret options = Some s /\ s <> EmptyString /\
    router = {| post_register :=
                  register U B (orDefault (Options.bcryptRounds options) 14%Z);
                post_login :=
                  login U B J s (orDefault (Options.expiresIn options) (Hours 24));
                get_me := guarded (authHandler J s) (me U) |}.
Proof.
  unfold createAuthRouter, authMiddleware. cbn [Options.secret].
  destruct (Js.truthy (Options.secret options)) eqn:Ht; simpl; [| discriminate].
  intros H. inversion H; subst router; clear H.
  apply truthy_true in Ht. unfold missing in Ht.
  destruct (Options.secret options) as [s|]; [| tauto].
  exists s. repeat split. intros ->. tauto.
Qed.

Lemma authMiddleware_returned (options : Options) (gate : Middleware W) :
  authMiddleware J options = Returned gate ->
  exists s, Options.secret options = Some s /\ s <> EmptyString /\
    gate = authHandler J s.
Proof.
  unfold authMiddleware.
  destruct (Js.truthy (Options.secret options)) eqn:Ht; simpl; [| discriminate].
  intros H. inversion H; subst gate; clear H.
  apply truthy_true in Ht. unfold missing in Ht.
  destruct (Options.secret options) as [s|]; [| tauto].
  exists s. repeat split. intros ->. tauto.
Qed.

End Routes.

(** C8.  With the secret absent or empty, both constructors throw at
    once; and whatever a constructor returns runs its handlers with a
    secret that is present and not empty. *)
Theorem secret_required {W : Type} (U : User.model W) (B : bcrypt.lib W)
    (J : jwt.lib W) (options : Options) :
  (missing (Options.secret options) ->
     authMiddleware J options
       = Thrown (Error "JWT secret is required for authMiddleware") /\
     createAuthRouter U B J options
       = Thrown (Error "JWT secret is required for createAuthRouter")) /\
  (forall gate, authMiddleware J options = Returned gate ->
     exists s, Options.secret options = Some s /\ s <> EmptyString /\
       gate = authHandler J s) /\
  (forall router, createAuthRouter U B J options = Returned router ->
     exists s, Options.secret options = Some s /\ s <> EmptyString /\
       router =
       {| post_register :=
            register U B (orDefault (Options.bcryptRounds options) 14%Z);
          post_login :=
            login U B J s (orDefault (Options.expiresIn options) (Hours 24));
          get_me := guarded (authHandler J s) (me U) |}).
Proof.
  split; [| split].
  - intros Hm. apply truthy_false in Hm.
    unfold authMiddleware, createAuthRouter. cbn zeta. now rewrite Hm.
  - apply authMiddleware_returned.
  - apply createAuthRouter_returned.
Qed.

Lemma secret_required_witness :
  authMiddleware Jwt.lib noSecret
    = Thrown (Error "JWT secret is required for authMiddleware") /\
  createAuthRouter Directory.model Bcrypt.lib Jwt.lib noSecret
    = Thrown (Error "JWT secret is required for createAuthRouter").
Proof.
  apply (proj1 (secret_required Directory.model Bcrypt.lib Jwt.lib noSecret)).
  right. reflexivity.
Defined.

(** C9.  Every response of the register, login and me routes of a
    router, and every response of the gate, has a boolean [success] on
    top; with [success] false it has a [message], with [success] true it
    has a [data] payload. *)
Theorem response_envelope {W : Type} (U : User.model W) (B : bcrypt.lib W)
    (J : jwt.lib W) (options : Options) (router : Router W)
    (req : Request) (w : W) :
  createAuthRouter U B J options = Returned router ->
  envelope (fst (post_register router req w)) /\
  envelope (fst (post_login router req w)) /\
  envelope (fst (get_me router req w)) /\
  (forall gate r, authMiddleware J options = Returned gate ->
     gate req w = Respond r -> envelope r).
Proof.
  intros Hr. apply createAuthRouter_returned in Hr.
  destruct Hr as [s [Hs [Hne ->]]]. cbn [post_register post_login get_me].
  split; [apply register_envelope |].
  split; [apply login_envelope |].
  split.
  - unfold guarded. destruct (authHandler J s req w) as [r|user] eqn:Hg.
    + simpl. eapply authHandler_envelope; eassumption.
    + apply me_envelope.
  - intros gate r Hg Hgr. apply authMiddleware_returned in Hg.
    destruct Hg as [s' [_ [_ ->]]]. eapply authHandler_envelope; eassumption.
Qed.

Lemma response_envelope_witness :
  envelope (fst (register Directory.model Bcrypt.lib 14 registerJo world0)).
Proof.
  apply (proj1 (response_envelope Directory.model Bcrypt.lib Jwt.lib options0
                  {| post_register := register Directory.model Bcrypt.lib 14;
                     post_login := login Directory.model Bcrypt.lib Jwt.lib
                                     "s3cret" (Hours 24);
                     get_me := guarded (authHandler Jwt.lib "s3cret")
                                 (me Directory.model) |}
                  registerJo world0 eq_refl)).
Defined.

(** C2.  A login for an email the directory does not hold and a login
    for an email it holds, with a password that does not match, get the
    same response, 401 with the one message "Invalid email or password";
    and the response to one and the same request does not tell a
    directory without the account from one with it. *)
Theorem login_invalid_credentials {W : Type} (U : User.model W)
    (B : bcrypt.lib W) (J : jwt.lib W) (secret : string) (ttl : TimeSpan) :
  (forall (req1 req2 : Request) (w1 w2 : W) (user : Account),
     ~ missing (body_email req1) -> ~ missing (body_password req1) ->
     ~ missing (body_email req2) -> ~ missing (body_password req2) ->
     User.findOne U (normalizeEmail (str (body_email req1))) w1
       = Returned None ->
     User.findOne U (normalizeEmail (str (body_email req2))) w2
       = Returned (Some user) ->
     bcrypt.compare B (str (body_password req2)) (Account.password user) w2
       = Returned false ->
     login U B J secret ttl req1 w1 = (invalidCredentials, w1) /\
     login U B J secret ttl req2 w2 = (invalidCredentials, w2) /\
     fst (login U B J secret ttl req1 w1)
       = fst (login U B J secret ttl req2 w2)) /\
  (forall (req : Request) (w1 w2 : W) (user : Account),
     User.findOne U (normalizeEmail (str (body_email req))) w1
       = Returned None ->
     User.findOne U (normalizeEmail (str (body_email req))) w2
       = Returned (Some user) ->
     bcrypt.compare B (str (body_password req)) (Account.password user) w2
       = Returned false ->
     fst (login U B J secret ttl req w1) = fst (login U B J secret ttl req w2)).
Proof.
  split.
  - intros req1 req2 w1 w2 user He1 Hp1 He2 Hp2 Hf1 Hf2 Hc.
    apply truthy_true in He1, Hp1, He2, Hp2.
    assert (E1 : login U B J secret ttl req1 w1 = (invalidCredentials, w1)).
    { run. rewrite He1, Hp1. simpl. now rewrite Hf1. }
    assert (E2 : login U B J secret ttl req2 w2 = (invalidCredentials, w2)).
    { run. rewrite He2, Hp2. simpl. rewrite Hf2, Hc. reflexivity. }
    rewrite E1, E2. auto.
  - intros req w1 w2 user Hf1 Hf2 Hc. run.
    destruct (negb (Js.truthy (body_email req))
              || negb (Js.truthy (body_password req))); simpl; [reflexivity |].
    rewrite Hf1, Hf2, Hc. reflexivity.
Qed.

Lemma login_invalid_credentials_witness :
  login Directory.model Bcrypt.lib Jwt.lib "s3cret" (Hours 24)
    (loginRequest "ghost@b.com" "Secure123!") world1
    = (invalidCredentials, world1) /\
  login Directory.model Bcrypt.lib Jwt.lib "s3cret" (Hours 24)
    (loginRequest "A@B.com" "Wrong123!") world1
    = (invalidCredentials, world1) /\
  fst (login Directory.model Bcrypt.lib Jwt.lib "s3cret" (Hours 24)
         (loginRequest "ghost@b.com" "Secure123!") world1)
  = fst (login Directory.model Bcrypt.lib Jwt.lib "s3cret" (Hours 24)
           (loginRequest "A@B.com" "Wrong123!") world1).
Proof.
  apply (proj1 (login_invalid_credentials Directory.model Bcrypt.lib Jwt.lib
                  "s3cret" (Hours 24))
           (loginRequest "ghost@b.com" "Secure123!")
           (loginRequest "A@B.com" "Wrong123!") world1 world1 alice).
  - intros [H|H]; discriminate H.
  - intros [H|H]; discriminate H.
  - intros [H|H]; discriminate H.
  - intros [H|H]; discriminate H.
  - reflexivity.
  - reflexivity.
  - reflexivity.
Defined.

(** C5, as stated, fails in two ways.  A request whose three fields are
    all present, with an empty name, a password that passes the policy and
    an email the directory does not hold, is answered 400 for missing
    fields, not 201.  And a request that passes all three checks is
    answered 500 when the directory cannot be reached. *)
Lemma register_counterexample :
  (body_name (registerRequest EmptyString "a@b.com" "Secure123!") <> None /\
   body_email (registerRequest EmptyString "a@b.com" "Secure123!") <> None /\
   body_password (registerRequest EmptyString "a@b.com" "Secure123!") <> None /\
   isValid (validatePassword "Secure123!") = true /\
   User.findOne Directory.model (normalizeEmail "a@b.com") world0
     = Returned None /\
   register Directory.model Bcrypt.lib 14
     (registerRequest EmptyString "a@b.com" "Secure123!") world0
     = (missingFields, world0)) /\
  register Directory.down Bcrypt.lib 14
    (registerRequest "Jo" "a@b.com" "Secure123!") world0
    = (internalError, world0).
Proof.
  repeat split; try discriminate; reflexivity.
Qed.

(** C5, amended.  Registration answers 400 for missing fields when a
    field is absent or empty; otherwise 400 with the message of the
    password policy when the password fails it; otherwise 400 "Email
    already exists" when the lookup of the normalized email returns an
    account; otherwise, when the lookup returns none and hashing and
    creation return, 201 with the created account's [id], [name], [email]
    and [createdAt] and nothing else of it.  The created account has the
    trimmed name, the normalized email and the hash as its password.  A
    lookup, hashing or creation that throws is answered by the [catch]
    clause, with 400 or 500. *)
Theorem register_flow {W : Type} (U : User.model W) (B : bcrypt.lib W)
    (rounds : Z) (req : Request) (w : W) :
  (missing (body_name req) \/ missing (body_email req)
   \/ missing (body_password req) ->
     register U B rounds req w = (missingFields, w)) /\
  (~ missing (body_name req) -> ~ missing (body_email req) ->
   ~ missing (body_password req) ->
     (isValid (validatePassword (str (body_password req))) = false ->
        exists reason,
          message (validatePassword (str (body_password req))) = Some reason /\
          register U B rounds req w = (failure 400 (Some reason), w)) /\
     (isValid (validatePassword (str (body_password req))) = true ->
        (forall existing,
           User.findOne U (normalizeEmail (str (body_email req))) w
             = Returned (Some existing) ->
           register U B rounds req w = (duplicateEmail, w)) /\
        (forall hashed user w',
           User.findOne U (normalizeEmail (str (body_email req))) w
             = Returned None ->
           bcrypt.hash B (str (body_password req)) rounds w = Returned hashed ->
           User.create U {| new_name := Js.trim (str (body_name req));
                            new_email := normalizeEmail (str (body_email req));
                            new_password := hashed |} w
             = (Returned user, w') ->
           register U B rounds req w
             = ({| status := 201;
                   body := JObj
                     [("success", JBool true);
                      ("message", JStr "User registered successfully");
                      ("data", JObj
                         [("user", JObj
                            [("id", JStr (Account._id user));
                             ("name", JStr (Account.name user));
                             ("email", JStr (Account.email user));
                             ("createdAt", JNum (Account.createdAt user))])])]
                |}, w')) /\
        (forall error,
           User.findOne U (normalizeEmail (str (body_email req))) w
             = Thrown error ->
           register U B rounds req w = (registerCatch error, w)) /\
        (forall error,
           User.findOne U (normalizeEmail (str (body_email req))) w
             = Returned None ->
           bcrypt.hash B (str (body_password req)) rounds w = Thrown error ->
           register U B rounds req w = (registerCatch error, w)) /\
        (forall hashed error w',
           User.findOne U (normalizeEmail (str (body_email req))) w
             = Returned None ->
           bcrypt.hash B (str (body_password req)) rounds w = Returned hashed ->
           User.create U {| new_name := Js.trim (str (body_name req));
                            new_email := normalizeEmail (str (body_email req));
                            new_password := hashed |} w
             = (Thrown error, w') ->
           register U B rounds req w = (registerCatch error, w')))) /\
  (forall error,
     status (registerCatch error) = 400 \/ status (registerCatch error) = 500).
Proof.
  split; [| split].
  - rewrite <- !truthy_false. intros H. run.
    destruct H as [-> | [-> | ->]]; simpl; rewrite ?orb_true_r; reflexivity.
  - rewrite <- !truthy_true. intros Hn He Hp. split.
    + intros Hv. destruct (invalid_has_message _ Hv) as [reason Hm].
      exists reason. split; [exact Hm |].
      run. rewrite Hn, He, Hp, Hv. simpl. now rewrite Hm.
    + intros Hv. repeat split.
      * intros existing Hf. run. rewrite Hn, He, Hp, Hv. simpl.
        now rewrite Hf.
      * intros hashed user w' Hf Hh Hc. run. rewrite Hn, He, Hp, Hv. simpl.
        rewrite Hf, Hh, Hc. reflexivity.
      * intros error Hf. run. rewrite Hn, He, Hp, Hv. simpl.
        now rewrite Hf.
      * intros error Hf Hh. run. rewrite Hn, He, Hp, Hv. simpl.
        now rewrite Hf, Hh.
      * intros hashed error w' Hf Hh Hc. run. rewrite Hn, He, Hp, Hv. simpl.
        now rewrite Hf, Hh, Hc.
  - intros error. unfold registerCatch, internalError.
    repeat match goal with
           | |- context [if ?b then _ else _] => destruct b
           end; simpl; auto.
Qed.

Lemma register_flow_witness :
  register Directory.model Bcrypt.lib 14
    (registerRequest "Jo" "a@b.com" "weak") world0
  = (failure 400 (Some "Password must be at least 8 characters long"), world0).
Proof.
  destruct (proj1 (proj1 (proj2 (register_flow Directory.model Bcrypt.lib 14
                                   (registerRequest "Jo" "a@b.com" "weak")
                                   world0))
                     ltac:(intros [H|H]; discriminate H)
                     ltac:(intros [H|H]; discriminate H)
                     ltac:(intros [H|H]; discriminate H))
             eq_refl) as [reason [Hm Hr]].
  vm_compute in Hm. inversion Hm; subst reason. exact Hr.
Defined.

(* ================================================================== *)
(** * Email normalization *)
(* ================================================================== *)

Lemma lower_char_idem (c : ascii) :
  Js.lower_char (Js.lower_char c) = Js.lower_char c.
Proof. destruct c as [[] [] [] [] [] [] [] []]; reflexivity. Qed.

Lemma lower_char_space (c : ascii) :
  Js.isWhiteSpace (Js.lower_char c) = Js.isWhiteSpace c.
Proof. destruct c as [[] [] [] [] [] [] [] []]; reflexivity. Qed.

Lemma toLowerCase_idem (s : string) :
  Js.toLowerCase (Js.toLowerCase s) = Js.toLowerCase s.
Proof.
  induction s as [|c s IH]; simpl; [reflexivity |].
  now rewrite lower_char_idem, IH.
Qed.

Lemma toLowerCase_trimStart (s : string) :
  Js.toLowerCase (Js.trimStart s) = Js.trimStart (Js.toLowerCase s).
Proof.
  induction s as [|c s IH]; simpl; [reflexivity |].
  rewrite lower_char_space. destruct (Js.isWhiteSpace c); [exact IH | reflexivity].
Qed.

Lemma toLowerCase_trimEnd (s : string) :
  Js.toLowerCase (Js.trimEnd s) = Js.trimEnd (Js.toLowerCase s).
Proof.
  induction s as [|c s IH]; simpl; [reflexivity |].
  rewrite <- IH, lower_char_space.
  destruct (Js.trimEnd s) as [|d r]; simpl.
  - destruct (Js.isWhiteSpace c); reflexivity.
  - reflexivity.
Qed.

Lemma toLowerCase_trim (s : string) :
  Js.toLowerCase (Js.trim s) = Js.trim (Js.toLowerCase s).
Proof.
  unfold Js.trim. now rewrite toLowerCase_trimEnd, toLowerCase_trimStart.
Qed.

Lemma trimEnd_idem (s : string) : Js.trimEnd (Js.trimEnd s) = Js.trimEnd s.
Proof.
  induction s as [|c s IH]; simpl; [reflexivity |].
  destruct (Js.trimEnd s) as [|d r] eqn:E.
  - destruct (Js.isWhiteSpace c) eqn:Hc; simpl; [reflexivity |].
    now rewrite Hc.
  - cbn [Js.trimEnd]. cbn [Js.trimEnd] in IH. now rewrite IH.
Qed.

Lemma trimStart_trimmed (s : string) : trimmedStart (Js.trimStart s).
Proof.
  induction s as [|c s IH]; simpl; [exact I |].
  destruct (Js.isWhiteSpace c) eqn:Hc; [exact IH | exact Hc].
Qed.

Lemma trimStart_fixed (s : string) : trimmedStart s -> Js.trimStart s = s.
Proof.
  destruct s as [|c s]; simpl; [reflexivity |]. now intros ->.
Qed.

Lemma trimEnd_trimmed (s : string) :
  trimmedStart s -> trimmedStart (Js.trimEnd s).
Proof.
  destruct s as [|c s]; simpl; [tauto |]. intros Hc.
  destruct (Js.trimEnd s); [rewrite Hc |]; exact Hc.
Qed.

Lemma trim_idem (s : string) : Js.trim (Js.trim s) = Js.trim s.
Proof.
  unfold Js.trim.
  rewrite (trimStart_fixed (Js.trimEnd (Js.trimStart s))).
  - apply trimEnd_idem.
  - apply trimEnd_trimmed, trimStart_trimmed.
Qed.

(** Emails that differ only in case, or only in surrounding white space,
    have the same normal form. *)
Lemma same_normal_form (a b : string) :
  Js.toLowerCase a = Js.toLowerCase b \/ Js.trim a = Js.trim b ->
  normalizeEmail a = normalizeEmail b.
Proof.
  unfold normalizeEmail. intros [H|H].
  - now rewrite H.
  - now rewrite <- !toLowerCase_trim, H.
Qed.


(* ================================================================== *)
(** * Registration against the reference directory *)
(* ================================================================== *)

Lemma find_none_existsb {A : Type} (f : A -> bool) (l : list A) :
  find f l = None -> existsb f l = false.
Proof.
  induction l as [|x l IH]; simpl; [reflexivity |].
  destruct (f x); [discriminate | exact IH].
Qed.

Lemma find_app_last {A : Type} (f : A -> bool) (l : list A) (x : A) :
  find f l = None -> f x = true -> find f (l ++ [x]) = Some x.
Proof.
  induction l as [|y l IH]; simpl; intros Hn Hx.
  - now rewrite Hx.
  - destruct (f y); [discriminate | auto].
Qed.

Lemma registerCatch_status (error : JsError) :
  status (registerCatch error) <> 201.
Proof.
  unfold registerCatch, internalError.
  repeat match goal with
         | |- context [if ?b then _ else _] => destruct b
         end; discriminate.
Qed.

Section Registered.

Variable B : bcrypt.lib World.
Variable rounds : Z.

(** A registration either leaves the directory as it was, or answers 201
    and appends one account, under the normalized email. *)
Lemma register_outcomes (req : Request) (w : World) :
  (status (fst (register Directory.model B rounds req w)) <> 201 /\
   snd (register Directory.model B rounds req w) = w) \/
  (exists hashed,
     ~ missing (body_name req) /\ ~ missing (body_email req) /\
     ~ missing (body_password req) /\
     find (Directory.byEmail (normalizeEmail (str (body_email req)))) (users w)
       = None /\
     register Directory.model B rounds req w
       = (success 201 "User registered successfully"
            (JObj [("user", userResponse (created req hashed w))]),
          {| users := users w ++ [created req hashed w]; now := now w |})).
Proof.
  run. cbn [User.findOne User.create Directory.model].
  unfold Directory.findOne, Directory.create.
  destruct (Js.truthy (body_name req)) eqn:Hn; simpl;
    [| left; split; [discriminate | reflexivity]].
  destruct (Js.truthy (body_email req)) eqn:He; simpl;
    [| left; split; [discriminate | reflexivity]].
  destruct (Js.truthy (body_password req)) eqn:Hp; simpl;
    [| left; split; [discriminate | reflexivity]].
  destruct (isValid (validatePassword (str (body_password req)))); simpl;
    [| left; split; [discriminate | reflexivity]].
  destruct (find _ (users w)) as [existing|] eqn:Hf; simpl;
    [left; split; [discriminate | reflexivity] |].
  destruct (bcrypt.hash B _ rounds w) as [hashed|e]; simpl;
    [| left; split; [apply registerCatch_status | reflexivity]].
  cbn [new_email]. rewrite (find_none_existsb _ _ Hf). simpl.
  right. exists hashed. apply truthy_true in Hn, He, Hp.
  repeat split; auto.
Qed.

Lemma register_created (req : Request) (w w1 : World) (resp : Response) :
  register Directory.model B rounds req w = (resp, w1) ->
  status resp = 201 ->
  exists hashed,
    find (Directory.byEmail (normalizeEmail (str (body_email req)))) (users w)
      = None /\
    resp = success 201 "User registered successfully"
             (JObj [("user", userResponse (created req hashed w))]) /\
    w1 = {| users := users w ++ [created req hashed w]; now := now w |}.
Proof.
  intros Hr Hs.
  destruct (register_outcomes req w) as [[Hne _]|[hashed [_ [_ [_ [Hf E]]]]]].
  - rewrite Hr in Hne. simpl in Hne. contradiction.
  - rewrite Hr in E. inversion E. eauto.
Qed.


Lemma lookup_registered (req : Request) (hashed : string) (w : World) :
  find (Directory.byEmail (normalizeEmail (str (body_email req)))) (users w)
    = None ->
  find (Directory.byEmail (normalizeEmail (str (body_email req))))
       (users w ++ [created req hashed w])
  = Some (created req hashed w).
Proof.
  intros Hf. apply find_app_last; [exact Hf |].
  unfold Directory.byEmail. cbn [created Account.email]. apply String.eqb_refl.
Qed.

End Registered.

Section Consistency.

Context {W : Type}.
Variable U : User.model W.
Variable B : bcrypt.lib W.
Variable J : jwt.lib W.


Lemma login_keeps_world (secret : string) (ttl : TimeSpan) (req : Request)
    (w : W) :
  snd (login U B J secret ttl req w) = w.
Proof.
  run.
  destruct (negb (Js.truthy (body_email req))
            || negb (Js.truthy (body_password req))); simpl; [reflexivity |].
  destruct (User.findOne U _ w) as [[user|]|e]; simpl; try reflexivity.
  destruct (bcrypt.compare B _ _ w) as [[|]|e]; simpl; try reflexivity.
  destruct (jwt.sign J _ secret ttl w) as [token|e]; reflexivity.
Qed.

End Consistency.

Lemma me_keeps_world {W : Type} (U : User.model W) (user : ReqUser) (w : W) :
  snd (me U user w) = w.
Proof.
  run. destruct (User.findById U _ w) as [[found|]|e]; reflexivity.
Qed.

Lemma guarded_keeps_world {W : Type} (U : User.model W) (gate : Middleware W)
    (req : Request) (w : W) :
  snd (guarded gate (me U) req w) = w.
Proof.
  unfold guarded. destruct (gate req w); [reflexivity | apply me_keeps_world].
Qed.


(* ================================================================== *)
(** * The end-to-end scenario of the design document *)
(* ================================================================== *)

Example end_to_end :
  createAuthRouter Directory.model Bcrypt.lib Jwt.lib options0
    = Returned router0 /\
  let (registered, w1) := post_register router0 registerJo world0 in
  let (loggedIn, w2) :=
    post_login router0 (loginRequest "a@b.com" "Secure123!") w1 in
  status registered = 201 /\
  map Account.email (users w1) = ["a@b.com"] /\
  status loggedIn = 200 /\
  fst (get_me router0
         (bearerRequest (Some ("Bearer " ++ tokenOf loggedIn))) w2)
    = success 200 "User retrieved successfully"
        (JObj [("user", JObj [("id", JStr "0x0"); ("name", JStr "Jo");
                              ("email", JStr "a@b.com");
                              ("createdAt", JNum 1000);
                              ("updatedAt", JNum 1000)])]) /\
  fst (get_me router0 (bearerRequest None) w2) = missingHeader /\
  fst (get_me router0 (bearerRequest (Some "Token xyz")) w2) = malformedHeader.
Proof.
  split; [reflexivity |].
  vm_compute. repeat split.
Qed.

(* ================================================================== *)
(** * Further properties of [validatePassword] *)
(* ================================================================== *)

Lemma list_ascii_app (a b : string) :
  list_ascii_of_string (a ++ b)
  = (list_ascii_of_string a ++ list_ascii_of_string b)%list.
Proof. induction a as [|c a IH]; simpl; [reflexivity | now rewrite IH]. Qed.

Lemma length_list_ascii (s : string) :
  List.length (list_ascii_of_string s) = String.length s.
Proof. induction s as [|c s IH]; simpl; [reflexivity | now rewrite IH]. Qed.

Lemma length_app (a b : string) :
  String.length (a ++ b) = String.length a + String.length b.
Proof. induction a as [|c a IH]; simpl; [reflexivity | now rewrite IH]. Qed.

Lemma test_app (cls : list Js.ClassAtom) (a b : string) :
  Js.test cls (a ++ b) = Js.test cls a || Js.test cls b.
Proof. unfold Js.test. now rewrite list_ascii_app, existsb_app. Qed.

Lemma existsb_permutation {A : Type} (f : A -> bool) (l l' : list A) :
  Permutation l l' -> existsb f l = existsb f l'.
Proof.
  induction 1 as [|x l l' _ IH|x y l|l l' l'' _ IH1 _ IH2]; simpl.
  - reflexivity.
  - now rewrite IH.
  - destruct (f x), (f y); reflexivity.
  - now rewrite IH1.
Qed.

(** [validatePassword] in terms of its five tests. *)
Lemma validatePassword_tests (p : string) :
  isValid (validatePassword p) = true <->
  (String.length p <? 8)%nat = false /\ Js.test reUpper p = true /\
  Js.test reLower p = true /\ Js.test reDigit p = true /\
  Js.test reSpecial p = true.
Proof.
  unfold validatePassword.
  destruct (String.length p <? 8)%nat; simpl; [intuition discriminate |].
  destruct (Js.test reUpper p); simpl; [| intuition discriminate].
  destruct (Js.test reLower p); simpl; [| intuition discriminate].
  destruct (Js.test reDigit p); simpl; [| intuition discriminate].
  destruct (Js.test reSpecial p); simpl; intuition discriminate.
Qed.

Lemma validatePassword_accepts (p : string) :
  isValid (validatePassword p) = true ->
  validatePassword p = {| isValid := true; message := None |}.
Proof.
  intros H. apply validatePassword_tests in H.
  destruct H as [H1 [H2 [H3 [H4 H5]]]].
  unfold validatePassword. now rewrite H1, H2, H3, H4, H5.
Qed.

(** X1.  A password that passes stays valid whatever is put before or
    after it: the rules only ask for enough characters and for the
    presence of some. *)
Theorem validatePassword_extension (p before after : string) :
  isValid (validatePassword p) = true ->
  validatePassword (before ++ p ++ after)
  = {| isValid := true; message := None |}.
Proof.
  intros H. apply validatePassword_accepts. apply validatePassword_tests.
  apply validatePassword_tests in H. destruct H as [H1 [H2 [H3 [H4 H5]]]].
  rewrite !test_app, H2, H3, H4, H5, !length_app.
  apply Nat.ltb_ge in H1. rewrite !orb_true_r.
  repeat split. apply Nat.ltb_ge. lia.
Qed.

Lemma validatePassword_extension_witness :
  validatePassword ("  " ++ "Secure123!" ++ " and more")
  = {| isValid := true; message := None |}.
Proof.
  apply (validatePassword_extension "Secure123!" "  " " and more").
  reflexivity.
Defined.

(** X2.  The verdict on a password, and the reason given for a rejection,
    do not depend on the order of its characters. *)
Theorem validatePassword_permutation (p q : string) :
  Permutation (list_ascii_of_string p) (list_ascii_of_string q) ->
  validatePassword p = validatePassword q.
Proof.
  intros H. unfold validatePassword, Js.test.
  rewrite <- (length_list_ascii p), <- (length_list_ascii q).
  rewrite (Permutation_length H).
  now rewrite !(existsb_permutation _ _ _ H).
Qed.

Lemma validatePassword_permutation_witness :
  validatePassword "ab" = validatePassword "ba".
Proof.
  apply (validatePassword_permutation "ab" "ba").
  simpl. apply perm_swap.
Defined.

(* ================================================================== *)
(** * Further properties of the routes *)
(* ================================================================== *)

Section MoreRoutes.

Context {W : Type}.
Variable U : User.model W.
Variable B : bcrypt.lib W.
Variable J : jwt.lib W.

Lemma login_found (secret : string) (ttl : TimeSpan) (req : Request) (w : W)
    (user : Account) :
  ~ missing (body_email req) -> ~ missing (body_password req) ->
  User.findOne U (normalizeEmail (str (body_email req))) w
    = Returned (Some user) ->
  login U B J secret ttl req w
  = match bcrypt.compare B (str (body_password req)) (Account.password user) w with
    | Returned true =>
        match jwt.sign J {| userId := Account._id user;
                            payload_email := Account.email user |} secret ttl w with
        | Returned token =>
            (success 200 "Login successful"
               (JObj [("token", JStr token); ("user", userResponse user)]), w)
        | Thrown _ => (internalError, w)
        end
    | Returned false => (failure 401 (Some "Invalid email or password"), w)
    | Thrown _ => (internalError, w)
    end.
Proof.
  intros He Hp Hf. apply truthy_true in He, Hp.
  run. rewrite He, Hp. simpl. rewrite Hf.
  destruct (bcrypt.compare B _ _ w) as [[|]|e]; simpl; try reflexivity.
  destruct (jwt.sign J _ secret ttl w); reflexivity.
Qed.

Lemma me_cases (user : ReqUser) (w : W) :
  me U user w
  = match User.findById U (ReqUser.id user) w with
    | Returned (Some found) =>
        (success 200 "User retrieved successfully"
           (JObj [("user", userResponseMe found)]), w)
    | Returned None => (failure 404 (Some "User not found"), w)
    | Thrown _ => (internalError, w)
    end.
Proof.
  run. destruct (User.findById U _ w) as [[found|]|e]; reflexivity.
Qed.

Lemma registerCatch_cases (error : JsError) :
  registerCatch error = duplicateEmail \/
  (exists msg, registerCatch error = failure 400 (Some msg)) \/
  registerCatch error = internalError.
Proof.
  unfold registerCatch.
  destruct (match err_code error with Some c => (c =? 11000)%Z | None => false end);
    [now left |].
  destruct (err_name error =? "ValidationError"); [right; left; eauto | now right; right].
Qed.

End MoreRoutes.

(** X3.  A login with a non-empty email and password, whose account is
    found and whose password compares equal, signs [{userId, email}] of
    that account with the configured secret and lifetime and answers 200
    with the token and the account's [id], [name], [email] and
    [createdAt], nothing else of it. *)
Theorem login_success {W : Type} (U : User.model W) (B : bcrypt.lib W)
    (J : jwt.lib W) (secret : string) (ttl : TimeSpan) (req : Request)
    (w : W) (user : Account) (token : string) :
  ~ missing (body_email req) -> ~ missing (body_password req) ->
  User.findOne U (normalizeEmail (str (body_email req))) w
    = Returned (Some user) ->
  bcrypt.compare B (str (body_password req)) (Account.password user) w
    = Returned true ->
  jwt.sign J {| userId := Account._id user;
                payload_email := Account.email user |} secret ttl w
    = Returned token ->
  login U B J secret ttl req w
  = ({| status := 200;
        body := JObj
          [("success", JBool true);
           ("message", JStr "Login successful");
           ("data", JObj
              [("token", JStr token);
               ("user", JObj
                  [("id", JStr (Account._id user));
                   ("name", JStr (Account.name user));
                   ("email", JStr (Account.email user));
                   ("createdAt", JNum (Account.createdAt user))])])] |}, w).
Proof.
  intros He Hp Hf Hc Hs.
  rewrite (login_found U B J secret ttl req w user He Hp Hf), Hc, Hs.
  reflexivity.
Qed.

Lemma login_success_witness :
  status (fst (login Directory.model Bcrypt.lib Jwt.lib "s3cret" (Hours 24)
                 (loginRequest " A@B.com" "Secure123!") world1)) = 200.
Proof.
  rewrite (login_success Directory.model Bcrypt.lib Jwt.lib "s3cret" (Hours 24)
             (loginRequest " A@B.com" "Secure123!") world1 alice
             (Jwt.encode "s3cret"
                {| payload := {| userId := "0x0"; payload_email := "a@b.com" |};
                   iat := 1000; nbf := None; exp := Some 87400%Z |})).
  - reflexivity.
  - intros [H|H]; discriminate H.
  - intros [H|H]; discriminate H.
  - reflexivity.
  - reflexivity.
  - reflexivity.
Defined.

(** X4.  A login with the email or the password absent or empty is
    answered 400 before any lookup; and when the lookup, the comparison
    or the signing throws, the answer is 500 "Internal server error",
    the same whatever was thrown. *)
Theorem login_failures {W : Type} (U : User.model W) (B : bcrypt.lib W)
    (J : jwt.lib W) (secret : string) (ttl : TimeSpan) (req : Request)
    (w : W) :
  (missing (body_email req) \/ missing (body_password req) ->
     login U B J secret ttl req w
     = (failure 400 (Some "Email and password are required"), w)) /\
  (~ missing (body_email req) -> ~ missing (body_password req) ->
     (forall error,
        User.findOne U (normalizeEmail (str (body_email req))) w
          = Thrown error ->
        login U B J secret ttl req w = (internalError, w)) /\
     (forall user error,
        User.findOne U (normalizeEmail (str (body_email req))) w
          = Returned (Some user) ->
        bcrypt.compare B (str (body_password req)) (Account.password user) w
          = Thrown error ->
        login U B J secret ttl req w = (internalError, w)) /\
     (forall user error,
        User.findOne U (normalizeEmail (str (body_email req))) w
          = Returned (Some user) ->
        bcrypt.compare B (str (body_password req)) (Account.password user) w
          = Returned true ->
        jwt.sign J {| userId := Account._id user;
                      payload_email := Account.email user |} secret ttl w
          = Thrown error ->
        login U B J secret ttl req w = (internalError, w))).
Proof.
  split.
  - rewrite <- !truthy_false. intros H. run.
    destruct H as [-> | ->]; simpl; rewrite ?orb_true_r; reflexivity.
  - intros He Hp. repeat split.
    + intros error Hf. apply truthy_true in He, Hp.
      run. rewrite He, Hp. simpl. now rewrite Hf.
    + intros user error Hf Hc.
      now rewrite (login_found U B J secret ttl req w user He Hp Hf), Hc.
    + intros user error Hf Hc Hs.
      now rewrite (login_found U B J secret ttl req w user He Hp Hf), Hc, Hs.
Qed.

Lemma login_failures_witness :
  login Directory.down Bcrypt.lib Jwt.lib "s3cret" (Hours 24)
    (loginRequest "a@b.com" "Secure123!") world1
  = (internalError, world1).
Proof.
  apply (proj1 (proj2 (login_failures Directory.down Bcrypt.lib Jwt.lib
                         "s3cret" (Hours 24)
                         (loginRequest "a@b.com" "Secure123!") world1)
                  ltac:(intros [H|H]; discriminate H)
                  ltac:(intros [H|H]; discriminate H))
           Directory.unreachable).
  reflexivity.
Defined.

(** X5.  [GET /me] behind the gate: a request the gate rejects gets the
    gate's answer and the directory is not consulted; a request the gate
    lets through is answered 404 "User not found" when the id of the
    token is not in the directory, 200 with the account's [id], [name],
    [email], [createdAt] and [updatedAt] when it is, and 500 when the
    lookup throws. *)
Theorem me_flow {W : Type} (U : User.model W) (J : jwt.lib W)
    (secret : string) (req : Request) (w : W) :
  (forall r, authHandler J secret req w = Respond r ->
     guarded (authHandler J secret) (me U) req w = (r, w)) /\
  (forall user, authHandler J secret req w = Next user ->
     (User.findById U (ReqUser.id user) w = Returned None ->
        guarded (authHandler J secret) (me U) req w
        = (failure 404 (Some "User not found"), w)) /\
     (forall found, User.findById U (ReqUser.id user) w = Returned (Some found) ->
        guarded (authHandler J secret) (me U) req w
        = ({| status := 200;
              body := JObj
                [("success", JBool true);
                 ("message", JStr "User retrieved successfully");
                 ("data", JObj
                    [("user", JObj
                       [("id", JStr (Account._id found));
                        ("name", JStr (Account.name found));
                        ("email", JStr (Account.email found));
                        ("createdAt", JNum (Account.createdAt found));
                        ("updatedAt", JNum (Account.updatedAt found))])])] |},
           w)) /\
     (forall error, User.findById U (ReqUser.id user) w = Thrown error ->
        guarded (authHandler J secret) (me U) req w = (internalError, w))).
Proof.
  split.
  - intros r Hr. unfold guarded. now rewrite Hr.
  - intros user Hu. unfold guarded. rewrite Hu, me_cases.
    repeat split.
    + now intros ->.
    + now intros found ->.
    + now intros error ->.
Qed.

Lemma me_flow_witness :
  guarded (authHandler Jwt.lib "s3cret") (me Directory.model)
    (bearerRequest (Some ("Bearer " ++ Jwt.encode "s3cret"
       {| payload := {| userId := "0x7"; payload_email := "a@b.com" |};
          iat := 900; nbf := None; exp := Some 5000%Z |}))) world1
  = (failure 404 (Some "User not found"), world1).
Proof.
  apply (proj1 (proj2 (me_flow Directory.model Jwt.lib "s3cret"
                         (bearerRequest (Some ("Bearer " ++ Jwt.encode "s3cret"
                            {| payload := {| userId := "0x7";
                                             payload_email := "a@b.com" |};
                               iat := 900; nbf := None; exp := Some 5000%Z |})))
                         world1)
                  {| ReqUser.id := "0x7"; ReqUser.email := "a@b.com" |}
                  ltac:(vm_compute; reflexivity))).
  reflexivity.
Defined.

(** X6.  When the lookup before creation found nothing but the creation
    itself is rejected with error code 11000 (a unique index violated by
    a registration that got in between), register answers 400 "Email
    already exists", the answer of the lookup that finds the email, also
    when the error is named [ValidationError]; an error named
    [ValidationError] with another code is answered 400 with its
    messages joined by a comma and a space. *)
Theorem register_create_rejected {W : Type} (U : User.model W)
    (B : bcrypt.lib W) (rounds : Z) (req : Request) (w w' : W)
    (hashed : string) (error : JsError) :
  ~ missing (body_name req) -> ~ missing (body_email req) ->
  ~ missing (body_password req) ->
  isValid (validatePassword (str (body_password req))) = true ->
  User.findOne U (normalizeEmail (str (body_email req))) w = Returned None ->
  bcrypt.hash B (str (body_password req)) rounds w = Returned hashed ->
  User.create U {| new_name := Js.trim (str (body_name req));
                   new_email := normalizeEmail (str (body_email req));
                   new_password := hashed |} w
    = (Thrown error, w') ->
  (err_code error = Some 11000%Z ->
     register U B rounds req w = (duplicateEmail, w')) /\
  (err_code error <> Some 11000%Z -> err_name error = "ValidationError" ->
     register U B rounds req w
     = (failure 400 (Some (String.concat ", " (err_errors error))), w')) /\
  (err_code error <> Some 11000%Z -> err_name error <> "ValidationError" ->
     register U B rounds req w = (internalError, w')).
Proof.
  intros Hn He Hp Hv Hf Hh Hc. apply truthy_true in Hn, He, Hp.
  assert (E : register U B rounds req w = (registerCatch error, w')).
  { run. rewrite Hn, He, Hp, Hv. simpl. now rewrite Hf, Hh, Hc. }
  rewrite E. unfold registerCatch. repeat split.
  - intros ->. now rewrite Z.eqb_refl.
  - intros Hcode ->.
    destruct (err_code error) as [c|]; [| reflexivity].
    destruct (Z.eqb_spec c 11000) as [->|_]; [congruence | reflexivity].
  - intros Hcode Hname. apply String.eqb_neq in Hname. rewrite Hname.
    destruct (err_code error) as [c|]; [| reflexivity].
    destruct (Z.eqb_spec c 11000) as [->|_]; [congruence | reflexivity].
Qed.

Lemma register_create_rejected_witness :
  register racingDirectory Bcrypt.lib 14 registerJo world1
  = (duplicateEmail, world1).
Proof.
  apply (proj1 (register_create_rejected racingDirectory Bcrypt.lib 14
                  registerJo world1 world1 "$2a$Secure123!"
                  Directory.duplicateKey
                  ltac:(intros [H|H]; discriminate H)
                  ltac:(intros [H|H]; discriminate H)
                  ltac:(intros [H|H]; discriminate H)
                  eq_refl eq_refl eq_refl eq_refl)).
  reflexivity.
Defined.

(** X7.  Login and [GET /me] never change what is stored, whatever the
    collaborators return or throw; register changes it only through
    [User.create], reached with the trimmed name, the normalized email
    and the hash. *)
Theorem routes_store_only_by_create {W : Type} (U : User.model W)
    (B : bcrypt.lib W) (J : jwt.lib W) (rounds : Z) (secret : string)
    (ttl : TimeSpan) (gate : Middleware W) (req : Request) (w : W) :
  snd (login U B J secret ttl req w) = w /\
  snd (guarded gate (me U) req w) = w /\
  (snd (register U B rounds req w) = w \/
   exists hashed,
     bcrypt.hash B (str (body_password req)) rounds w = Returned hashed /\
     snd (register U B rounds req w)
     = snd (User.create U {| new_name := Js.trim (str (body_name req));
                             new_email := normalizeEmail (str (body_email req));
                             new_password := hashed |} w)).
Proof.
  split; [apply login_keeps_world |].
  split; [apply guarded_keeps_world |].
  run.
  destruct (negb (Js.truthy (body_name req)) || negb (Js.truthy (body_email req))
            || negb (Js.truthy (body_password req))); simpl; [now left |].
  destruct (negb (isValid (validatePassword (str (body_password req)))));
    simpl; [now left |].
  destruct (User.findOne U _ w) as [[existing|]|e]; simpl; try now left.
  destruct (bcrypt.hash B _ rounds w) as [hashed|e] eqn:Hh; simpl; [| now left].
  right. exists hashed. split; [reflexivity |].
  destruct (User.create U _ w) as [[user|e] w']; reflexivity.
Qed.

Lemma mentions_failure (k : string) (code : nat) (msg : string) :
  k <> "success" -> k <> "message" ->
  mentions k (body (failure code (Some msg))) = false.
Proof.
  intros H1 H2. unfold failure, optField. cbn [body mentions existsb].
  apply not_eq_sym in H1, H2. apply String.eqb_neq in H1, H2.
  now rewrite H1, H2.
Qed.

Section NoPassword.

Context {W : Type}.
Variable U : User.model W.
Variable B : bcrypt.lib W.
Variable J : jwt.lib W.

Lemma failure_clean (code : nat) (msg : string) :
  withoutPassword (failure code (Some msg)).
Proof. apply mentions_failure; discriminate. Qed.

Lemma register_clean (rounds : Z) (req : Request) (w : W) :
  withoutPassword (fst (register U B rounds req w)).
Proof.
  run.
  destruct (negb (Js.truthy (body_name req)) || negb (Js.truthy (body_email req))
            || negb (Js.truthy (body_password req))); simpl;
    [apply failure_clean |].
  destruct (isValid (validatePassword (str (body_password req)))) eqn:Hv; simpl.
  - assert (Hcatch : forall e, withoutPassword (registerCatch e)).
    { intros e. destruct (registerCatch_cases e) as [-> | [[msg ->] | ->]];
        apply failure_clean. }
    destruct (User.findOne U _ w) as [[existing|]|e]; simpl;
      [apply failure_clean | | apply Hcatch].
    destruct (bcrypt.hash B _ rounds w) as [h|e]; simpl; [| apply Hcatch].
    destruct (User.create U _ w) as [[user|e] w']; simpl; [reflexivity | apply Hcatch].
  - destruct (invalid_has_message _ Hv) as [msg ->]. apply failure_clean.
Qed.

Lemma login_clean (secret : string) (ttl : TimeSpan) (req : Request) (w : W) :
  withoutPassword (fst (login U B J secret ttl req w)).
Proof.
  run. unfold internalError.
  destruct (negb (Js.truthy (body_email req))
            || negb (Js.truthy (body_password req))); simpl;
    [apply failure_clean |].
  destruct (User.findOne U _ w) as [[user|]|e]; simpl; try apply failure_clean.
  destruct (bcrypt.compare B _ _ w) as [[|]|e]; simpl; try apply failure_clean.
  destruct (jwt.sign J _ secret ttl w) as [token|e]; simpl;
    [reflexivity | apply failure_clean].
Qed.

Lemma me_clean (secret : string) (req : Request) (w : W) :
  withoutPassword (fst (guarded (authHandler J secret) (me U) req w)).
Proof.
  unfold guarded.
  destruct (authHandler_cases J secret req w) as [H|[H|[t H]]]; rewrite H.
  - apply failure_clean.
  - apply failure_clean.
  - unfold verdict. destruct (jwt.verify J t secret w) as [decoded|e].
    + rewrite me_cases. unfold internalError.
      destruct (User.findById U _ w) as [[found|]|e]; simpl;
        [reflexivity | apply failure_clean | apply failure_clean].
    + simpl. unfold authCatch.
      repeat match goal with
             | |- context [if ?b then _ else _] => destruct b
             end; apply failure_clean.
Qed.

End NoPassword.

(** X8.  No response of the register, login and me routes of a router
    has a property named [password], at any depth: neither the submitted
    password nor the stored hash is sent back under that name, on
    success or on failure. *)
Theorem responses_without_password {W : Type} (U : User.model W)
    (B : bcrypt.lib W) (J : jwt.lib W) (options : Options) (router : Router W)
    (req : Request) (w : W) :
  createAuthRouter U B J options = Returned router ->
  mentions "password" (body (fst (post_register router req w))) = false /\
  mentions "password" (body (fst (post_login router req w))) = false /\
  mentions "password" (body (fst (get_me router req w))) = false.
Proof.
  intros Hr. apply createAuthRouter_returned in Hr.
  destruct Hr as [s [_ [_ ->]]]. cbn [post_register post_login get_me].
  split; [apply register_clean |].
  split; [apply login_clean | apply me_clean].
Qed.

Lemma responses_without_password_witness :
  mentions "password" (body (fst (post_register router0 registerJo world0)))
  = false.
Proof.
  apply (proj1 (responses_without_password Directory.model Bcrypt.lib Jwt.lib
                  options0 router0 registerJo world0 eq_refl)).
Defined.

(* ================================================================== *)
(** * Further properties of the auth gate *)
(* ================================================================== *)

Lemma count_app (c : ascii) (a b : string) :
  count c (a ++ b) = count c a + count c b.
Proof.
  induction a as [|d a IH]; simpl; [reflexivity |]. rewrite IH. lia.
Qed.

Lemma count_none (c : ascii) (s : string) :
  ~ Js.occurs c s <-> count c s = 0.
Proof.
  unfold Js.occurs. induction s as [|d s IH]; simpl; [tauto |].
  destruct (Ascii.eqb_spec d c) as [->|Hne].
  - split; [intros H; exfalso; apply H; now left | discriminate].
  - simpl. rewrite <- IH. split.
    + intros H Hs. apply H. now right.
    + intros H [Hd|Hs]; [congruence | exact (H Hs)].
Qed.

Lemma twoTokens_count (h a b : string) :
  twoTokens h a b -> count " " h = 1.
Proof.
  intros [-> [Ha Hb]]. apply count_none in Ha, Hb.
  rewrite !count_app, Ha, Hb. reflexivity.
Qed.

(** X9.  A non-empty authorization header is answered 401 "Invalid
    authorization header format" whenever the number of spaces in it is
    not exactly one (no space, a doubled, leading or trailing space), and
    whenever what stands before a space is not exactly [Bearer], capitals
    included; no token is verified then. *)
Theorem authHandler_malformed_shapes {W : Type} (J : jwt.lib W)
    (secret : string) (req : Request) (w : W) (h : string) :
  authorization req = Some h -> h <> EmptyString ->
  (count " " h <> 1 ->
     authHandler J secret req w = Respond malformedHeader) /\
  (forall scheme rest, h = scheme ++ " " ++ rest -> scheme <> "Bearer" ->
     authHandler J secret req w = Respond malformedHeader).
Proof.
  intros Hh Hne. split.
  - intros Hc. apply (authHandler_malformed J secret req w h Hh Hne).
    intros t Ht. apply Hc. exact (twoTokens_count _ _ _ Ht).
  - intros scheme rest Hs Hscheme.
    apply (authHandler_malformed J secret req w h Hh Hne).
    intros t Ht. pose proof (twoTokens_count _ _ _ Ht) as Hc.
    apply split_two in Ht. subst h.
    rewrite !count_app in Hc. simpl in Hc.
    assert (Hn : ~ Js.occurs " " scheme) by (apply count_none; lia).
    change (scheme ++ " " ++ rest) with (scheme ++ String " " rest) in Ht.
    rewrite (split_app " " scheme rest Hn) in Ht.
    inversion Ht. contradiction.
Qed.

Lemma authHandler_malformed_shapes_witness :
  authHandler Jwt.lib "s3cret" (bearerRequest (Some "bearer abc")) world0
  = Respond malformedHeader.
Proof.
  apply (proj2 (authHandler_malformed_shapes Jwt.lib "s3cret"
                  (bearerRequest (Some "bearer abc")) world0 "bearer abc"
                  eq_refl ltac:(discriminate))
           "bearer" "abc").
  - reflexivity.
  - discriminate.
Defined.

(* ================================================================== *)
(** * Further properties against the reference collaborators *)
(* ================================================================== *)

(** X10.  Against the directory, a registration answered 201 has stored
    exactly one more account, last, holding the trimmed name, the
    normalized email and as password what [bcrypt.hash] returned for the
    submitted one; a registration answered anything else has stored
    nothing. *)
Theorem register_stores (B : bcrypt.lib World) (rounds : Z) (req : Request)
    (w w1 : World) (resp : Response) :
  register Directory.model B rounds req w = (resp, w1) ->
  (status resp = 201 ->
     exists hashed,
       bcrypt.hash B (str (body_password req)) rounds w = Returned hashed /\
       w1 = {| users := users w ++ [created req hashed w]; now := now w |}) /\
  (status resp <> 201 -> w1 = w).
Proof.
  run. cbn [User.findOne User.create Directory.model].
  unfold Directory.findOne, Directory.create.
  destruct (negb (Js.truthy (body_name req)) || negb (Js.truthy (body_email req))
            || negb (Js.truthy (body_password req))); simpl.
  { intros H; inversion H; subst. split; [discriminate | reflexivity]. }
  destruct (negb (isValid (validatePassword (str (body_password req))))); simpl.
  { intros H; inversion H; subst. split; [discriminate | reflexivity]. }
  destruct (find _ (users w)) as [existing|] eqn:Hf; simpl.
  { intros H; inversion H; subst. split; [discriminate | reflexivity]. }
  destruct (bcrypt.hash B _ rounds w) as [hashed|e]; simpl.
  2:{ intros H; inversion H; subst. split; [| reflexivity].
      intros Hs. exfalso. exact (registerCatch_status e Hs). }
  cbn [new_email]. rewrite (find_none_existsb _ _ Hf). simpl.
  intros H; inversion H; subst. split.
  - intros _. exists hashed. split; reflexivity.
  - intros Hs. exfalso. apply Hs. reflexivity.
Qed.

Lemma register_stores_witness :
  snd (register Directory.model Bcrypt.lib 14
         (registerRequest "Jo" "a@b.com" "weak") world1) = world1.
Proof.
  apply (proj2 (register_stores Bcrypt.lib 14
                  (registerRequest "Jo" "a@b.com" "weak") world1
                  (snd (register Directory.model Bcrypt.lib 14
                          (registerRequest "Jo" "a@b.com" "weak") world1))
                  (fst (register Directory.model Bcrypt.lib 14
                          (registerRequest "Jo" "a@b.com" "weak") world1))
                  eq_refl)).
  discriminate.
Defined.

Lemma of_nat_inj (n m : nat) :
  HexString.of_nat n = HexString.of_nat m -> n = m.
Proof.
  intros H. rewrite <- (HexString.to_nat_of_nat n), <- (HexString.to_nat_of_nat m).
  now rewrite H.
Qed.

Lemma find_none_not_in (e : string) (l : list Account) :
  find (Directory.byEmail e) l = None -> ~ In e (map Account.email l).
Proof.
  induction l as [|u l IH]; simpl; [tauto |].
  unfold Directory.byEmail at 1.
  destruct (String.eqb_spec (Account.email u) e) as [|Hne]; [discriminate |].
  intros Hf [H|H]; [contradiction | exact (IH Hf H)].
Qed.

Lemma register_keeps_sound (B : bcrypt.lib World) (rounds : Z)
    (req : Request) (w : World) :
  sound w -> sound (snd (register Directory.model B rounds req w)).
Proof.
  intros [Hd Hn].
  destruct (register_outcomes B rounds req w)
    as [[_ ->]|[hashed [_ [_ [_ [Hf ->]]]]]]; [now split |].
  cbn [snd]. unfold sound, wellNumbered. cbn [users]. split.
  - rewrite map_app. cbn [map created Account.email].
    apply NoDup_app_remove_l with (l := []). simpl.
    apply Permutation_NoDup with
      (l := normalizeEmail (str (body_email req)) :: map Account.email (users w)).
    + apply Permutation_cons_append.
    + constructor; [now apply find_none_not_in | exact Hd].
  - rewrite map_app, List.length_app, Nat.add_1_r, seq_S, map_app, Hn.
    reflexivity.
Qed.

Lemma serve_sound (B : bcrypt.lib World) (J : jwt.lib World)
    (rounds : Z) (secret : string) (ttl : TimeSpan) (calls : list Call) :
  forall w, sound w ->
  sound
    (serve {| post_register := register Directory.model B rounds;
              post_login := login Directory.model B J secret ttl;
              get_me := guarded (authHandler J secret) (me Directory.model) |}
           calls w).
Proof.
  unfold serve. induction calls as [|c calls IH]; intros w Hw; [exact Hw |].
  cbn [fold_left]. apply IH. destruct c as [req|req|req|dt]; cbn [step].
  - cbn [post_register]. now apply register_keeps_sound.
  - cbn [post_login]. now rewrite login_keeps_world.
  - cbn [get_me]. now rewrite guarded_keeps_world.
  - exact Hw.
Qed.

Lemma sound_empty (t0 : Z) : sound (emptyWorld t0).
Proof. split; [constructor | reflexivity]. Qed.

Lemma wellNumbered_ids (w : World) :
  wellNumbered w -> NoDup (map Account._id (users w)).
Proof.
  unfold wellNumbered. intros ->.
  apply Finite.Injective_map_NoDup; [| apply seq_NoDup].
  intros n m. apply of_nat_inj.
Qed.

(** X11.  Whatever requests a router has served, starting from an empty
    directory, no two stored accounts have the same email and no two have
    the same id. *)
Theorem directory_uniqueness (B : bcrypt.lib World) (J : jwt.lib World)
    (options : Options) (router : Router World) (calls : list Call) (t0 : Z) :
  createAuthRouter Directory.model B J options = Returned router ->
  NoDup (map Account.email (users (serve router calls (emptyWorld t0)))) /\
  NoDup (map Account._id (users (serve router calls (emptyWorld t0)))).
Proof.
  intros Hr. apply createAuthRouter_returned in Hr.
  destruct Hr as [secret [_ [_ ->]]].
  destruct (serve_sound B J (orDefault (Options.bcryptRounds options) 14%Z)
              secret (orDefault (Options.expiresIn options) (Hours 24))
              calls (emptyWorld t0) (sound_empty t0)) as [Hd Hn].
  split; [exact Hd | now apply wellNumbered_ids].
Qed.

Lemma directory_uniqueness_witness :
  NoDup (map Account.email
           (users (serve router0
                     [Register registerJo;
                      Register (registerRequest "Jo" "a@b.com" "Secure123!");
                      Register (registerRequest "Al" "c@d.com" "Secure123!")]
                     (emptyWorld 0)))).
Proof.
  apply (proj1 (directory_uniqueness Bcrypt.lib Jwt.lib options0 router0
                  [Register registerJo;
                   Register (registerRequest "Jo" "a@b.com" "Secure123!");
                   Register (registerRequest "Al" "c@d.com" "Secure123!")]
                  0 eq_refl)).
Defined.

(** X12.  A token handed out by a successful login names the account the
    lookup found, and the gate built with the same secret accepts it at
    every clock reading before the issue time plus the configured
    lifetime, attaching that account's id and email; from that instant
    on it answers 401 "Token has expired". *)
Theorem login_token_lifetime (U : User.model World) (B : bcrypt.lib World)
    (secret : string) (ttl : TimeSpan) (req : Request) (w w1 : World)
    (resp : Response) :
  login U B Jwt.lib secret ttl req w = (resp, w1) ->
  status resp = 200 ->
  exists user,
    User.findOne U (normalizeEmail (str (body_email req))) w
      = Returned (Some user) /\
    forall req' w',
      authorization req' = Some ("Bearer " ++ tokenOf resp) ->
      authHandler Jwt.lib secret req' w'
      = if (now w' <? now w + seconds ttl)%Z
        then Next {| ReqUser.id := Account._id user;
                     ReqUser.email := Account.email user |}
        else Respond (failure 401 (Some "Token has expired")).
Proof.
  run. unfold internalError.
  destruct (negb (Js.truthy (body_email req))
            || negb (Js.truthy (body_password req))); simpl.
  { intros H; inversion H; subst. discriminate. }
  destruct (User.findOne U _ w) as [[user|]|e]; simpl;
    try (intros H; inversion H; subst; discriminate).
  destruct (bcrypt.compare B _ _ w) as [[|]|e]; simpl;
    try (intros H; inversion H; subst; discriminate).
  intros H _. injection H as Hresp Hw. subst resp w1.
  exists user. split; [reflexivity |].
  intros req' w' Hh.
  change (tokenOf _) with
    (Jwt.encode secret
       {| payload := {| userId := Account._id user;
                        payload_email := Account.email user |};
          iat := now w; nbf := None;
          exp := Some (now w + seconds ttl)%Z |}) in Hh.
  rewrite (authHandler_bearer Jwt.lib secret req' w' _ _ Hh
             (bearer_header secret _)).
  unfold verdict. cbn [jwt.verify Jwt.lib]. rewrite verify_encode.
  cbn [nbf exp payload userId payload_email].
  rewrite Z.leb_antisym. destruct (now w' <? now w + seconds ttl)%Z; reflexivity.
Qed.

Lemma login_token_lifetime_witness :
  exists user,
    User.findOne Directory.model (normalizeEmail "a@b.com") world1
      = Returned (Some user) /\
    forall req' w',
      authorization req'
        = Some ("Bearer " ++
                tokenOf (fst (login Directory.model Bcrypt.lib Jwt.lib "s3cret"
                                (Hours 24)
                                (loginRequest "a@b.com" "Secure123!") world1))) ->
      authHandler Jwt.lib "s3cret" req' w'
      = if (now w' <? now world1 + seconds (Hours 24))%Z
        then Next {| ReqUser.id := Account._id user;
                     ReqUser.email := Account.email user |}
        else Respond (failure 401 (Some "Token has expired")).
Proof.
  apply (login_token_lifetime Directory.model Bcrypt.lib "s3cret" (Hours 24)
           (loginRequest "a@b.com" "Secure123!") world1 world1
           (fst (login Directory.model Bcrypt.lib Jwt.lib "s3cret" (Hours 24)
                   (loginRequest "a@b.com" "Secure123!") world1))).
  - reflexivity.
  - reflexivity.
Defined.

Lemma find_all_false {A : Type} (f : A -> bool) (l : list A) :
  (forall x, In x l -> f x = false) -> find f l = None.
Proof.
  induction l as [|x l IH]; simpl; intros H; [reflexivity |].
  rewrite (H x (or_introl eq_refl)). apply IH. intros y Hy. apply H. now right.
Qed.

(** In a well-numbered directory the next id is not in use. *)
Lemma freshId_unused (w : World) :
  wellNumbered w ->
  find (Directory.byId (Directory.freshId w)) (users w) = None.
Proof.
  intros Hn. apply find_all_false. intros u Hu.
  unfold Directory.byId, Directory.freshId. apply String.eqb_neq. intros E.
  assert (Hin : In (Account._id u) (map Account._id (users w)))
    by now apply in_map.
  rewrite Hn, E in Hin. apply in_map_iff in Hin.
  destruct Hin as [i [Hi Hseq]]. apply of_nat_inj in Hi. subst i.
  apply in_seq in Hseq. lia.
Qed.

(** A registration answered 201 against the directory, in full. *)
Lemma register_accepted (B : bcrypt.lib World) (rounds : Z) (req : Request)
    (w w1 : World) (resp : Response) :
  register Directory.model B rounds req w = (resp, w1) ->
  status resp = 201 ->
  exists hashed,
    ~ missing (body_email req) /\ ~ missing (body_password req) /\
    bcrypt.hash B (str (body_password req)) rounds w = Returned hashed /\
    find (Directory.byEmail (normalizeEmail (str (body_email req)))) (users w)
      = None /\
    resp = success 201 "User registered successfully"
             (JObj [("user", userResponse (created req hashed w))]) /\
    w1 = {| users := users w ++ [created req hashed w]; now := now w |}.
Proof.
  run. cbn [User.findOne User.create Directory.model].
  unfold Directory.findOne, Directory.create.
  destruct (Js.truthy (body_name req)); simpl;
    [| intros H; inversion H; subst; discriminate].
  destruct (Js.truthy (body_email req)) eqn:He; simpl;
    [| intros H; inversion H; subst; discriminate].
  destruct (Js.truthy (body_password req)) eqn:Hp; simpl;
    [| intros H; inversion H; subst; discriminate].
  destruct (negb (isValid (validatePassword (str (body_password req))))); simpl;
    [intros H; inversion H; subst; discriminate |].
  destruct (find _ (users w)) as [existing|] eqn:Hf; simpl;
    [intros H; inversion H; subst; discriminate |].
  destruct (bcrypt.hash B _ rounds w) as [hashed|e]; simpl.
  2:{ intros H Hs. injection H as <- <-. exfalso.
      exact (registerCatch_status e Hs). }
  cbn [new_email]. rewrite (find_none_existsb _ _ Hf). simpl.
  intros H _. injection H as <- <-.
  apply truthy_true in He, Hp.
  exists hashed. repeat split; auto.
Qed.

(** X13.  Register, login, me compose.  After any history of requests
    from an empty directory, and with a positive token lifetime, a
    registration answered 201 is followed by this: a login with the same
    body is answered 200 and changes nothing, and [GET /me] with the token
    of that login is answered 200 with the very account the registration
    reported. *)
Theorem register_login_me (options : Options) (router : Router World)
    (calls : list Call) (t0 : Z) (req : Request) (resp : Response)
    (w1 : World) :
  createAuthRouter Directory.model Bcrypt.lib Jwt.lib options
    = Returned router ->
  (0 < seconds (orDefault (Options.expiresIn options) (Hours 24)))%Z ->
  post_register router req (serve router calls (emptyWorld t0)) = (resp, w1) ->
  status resp = 201 ->
  exists account loggedIn,
    field "data" (body resp) = Some (JObj [("user", userResponse account)]) /\
    post_login router req w1 = (loggedIn, w1) /\
    status loggedIn = 200 /\
    get_me router (bearerRequest (Some ("Bearer " ++ tokenOf loggedIn))) w1
    = (success 200 "User retrieved successfully"
         (JObj [("user", userResponseMe account)]), w1).
Proof.
  intros Hr Httl. apply createAuthRouter_returned in Hr.
  destruct Hr as [secret [_ [_ ->]]]. cbn [post_register post_login get_me].
  set (rounds := orDefault (Options.bcryptRounds options) 14%Z).
  set (ttl := orDefault (Options.expiresIn options) (Hours 24)) in *.
  pose proof (serve_sound Bcrypt.lib Jwt.lib rounds secret ttl calls
                (emptyWorld t0) (sound_empty t0)) as [_ Hn].
  set (w := serve _ calls (emptyWorld t0)) in *.
  intros Hreg Hs.
  destruct (register_accepted Bcrypt.lib rounds req w w1 resp Hreg Hs)
    as [hashed [He [Hp [Hh [Hf [-> ->]]]]]].
  assert (Hhashed : hashed = "$2a$" ++ str (body_password req)).
  { cbn [bcrypt.hash Bcrypt.lib] in Hh. unfold Bcrypt.hash in Hh. congruence. }
  subst hashed. clear Hh.
  set (account := created req ("$2a$" ++ str (body_password req)) w).
  set (w1 := {| users := users w ++ [account]; now := now w |}).
  assert (Hfind : User.findOne Directory.model
                    (normalizeEmail (str (body_email req))) w1
                  = Returned (Some account)).
  { cbn [User.findOne Directory.model]. unfold Directory.findOne, w1, account.
    cbn [users]. now rewrite (lookup_registered req _ w Hf). }
  exists account.
  eexists. split; [reflexivity |].
  rewrite (login_found Directory.model Bcrypt.lib Jwt.lib secret ttl req w1
             account He Hp Hfind).
  cbn [bcrypt.compare Bcrypt.lib]. unfold Bcrypt.compare.
  cbn [account created Account.password]. rewrite String.eqb_refl.
  cbn [jwt.sign Jwt.lib]. unfold Jwt.sign.
  split; [reflexivity |]. split; [reflexivity |].
  unfold guarded.
  set (cl := {| payload := {| userId := Account._id account;
                              payload_email := Account.email account |};
                iat := now w1; nbf := None;
                exp := Some (now w1 + seconds ttl)%Z |}).
  change (tokenOf _) with (Jwt.encode secret cl).
  rewrite (authHandler_bearer Jwt.lib secret
             (bearerRequest (Some ("Bearer " ++ Jwt.encode secret cl))) w1
             ("Bearer " ++ Jwt.encode secret cl) (Jwt.encode secret cl)
             eq_refl (bearer_header secret cl)).
  unfold verdict. cbn [jwt.verify Jwt.lib]. rewrite verify_encode.
  unfold cl, w1. cbn [nbf exp payload userId payload_email now].
  replace (now w + seconds ttl <=? now w)%Z with false
    by (symmetry; apply Z.leb_gt; lia).
  rewrite me_cases. cbn [ReqUser.id User.findById Directory.model].
  unfold Directory.findById. cbn [users w1].
  cbn [payload userId]. change (Account._id account) with (Directory.freshId w).
  rewrite (find_app_last _ _ account (freshId_unused w Hn)); [reflexivity |].
  unfold Directory.byId. apply String.eqb_refl.
Qed.

Lemma register_login_me_witness :
  exists account loggedIn,
    field "data" (body (fst (post_register router0 registerJo world0)))
      = Some (JObj [("user", userResponse account)]) /\
    post_login router0 registerJo (snd (post_register router0 registerJo world0))
      = (loggedIn, snd (post_register router0 registerJo world0)) /\
    status loggedIn = 200 /\
    get_me router0 (bearerRequest (Some ("Bearer " ++ tokenOf loggedIn)))
      (snd (post_register router0 registerJo world0))
    = (success 200 "User retrieved successfully"
         (JObj [("user", userResponseMe account)]),
       snd (post_register router0 registerJo world0)).
Proof.
  apply (register_login_me options0 router0 [] 1000 registerJo
           (fst (post_register router0 registerJo world0))
           (snd (post_register router0 registerJo world0))).
  - reflexivity.
  - reflexivity.
  - reflexivity.
  - reflexivity.
Defined.

Lemma hexEncode_inj (a b : string) :
  Jwt.hexEncode a = Jwt.hexEncode b -> a = b.
Proof.
  intros H. assert (E : Some a = Some b)
    by now rewrite <- !hexDecode_hexEncode, H.
  now inversion E.
Qed.

Lemma append_inv_tail (a b c : string) : a ++ c = b ++ c -> a = b.
Proof.
  intros H. apply (f_equal list_ascii_of_string) in H.
  rewrite !list_ascii_app in H. apply app_inv_tail in H.
  rewrite <- (string_of_list_ascii_of_string a),
          <- (string_of_list_ascii_of_string b).
  now rewrite H.
Qed.

Lemma tag_secret (s1 s2 input : string) :
  Jwt.tag s1 input = Jwt.tag s2 input -> s1 = s2.
Proof.
  unfold Jwt.tag. intros H. apply append_inv_tail in H.
  now apply hexEncode_inj.
Qed.

(** X14.  A token made under one secret and presented to a gate built
    with another is answered 401 "Invalid token", whatever its claims and
    whatever the clock: the signature is checked before the expiry. *)
Theorem wrong_secret_rejected (s1 s2 : string) (cl : Claims) (req : Request)
    (w : World) :
  s1 <> s2 ->
  authorization req = Some ("Bearer " ++ Jwt.encode s1 cl) ->
  authHandler Jwt.lib s2 req w = Respond (failure 401 (Some "Invalid token")).
Proof.
  intros Hne Hh.
  rewrite (authHandler_bearer Jwt.lib s2 req w _ _ Hh (bearer_header s1 cl)).
  unfold verdict. cbn [jwt.verify Jwt.lib]. unfold Jwt.verify.
  rewrite split_encode. unfold Jwt.fields. cbn [app].
  rewrite !hexDecode_hexEncode.
  match goal with
  | |- context [String.eqb ?x ?y] => destruct (String.eqb_spec x y) as [E|_]
  end.
  - exfalso. apply Hne. exact (tag_secret _ _ _ E).
  - reflexivity.
Qed.

Lemma wrong_secret_rejected_witness :
  authHandler Jwt.lib "s3cret"
    (bearerRequest (Some ("Bearer " ++ Jwt.encode "other" staleClaims))) world0
  = Respond (failure 401 (Some "Invalid token")).
Proof.
  apply (wrong_secret_rejected "other" "s3cret" staleClaims
           (bearerRequest (Some ("Bearer " ++ Jwt.encode "other" staleClaims)))
           world0).
  - discriminate.
  - reflexivity.
Defined.

Lemma lower_char_not_upper (c : ascii) :
  Js.class_matches reUpper (Js.lower_char c) = false.
Proof. destruct c as [[] [] [] [] [] [] [] []]; reflexivity. Qed.

Lemma toLowerCase_chars (c : ascii) (s : string) :
  Js.occurs c (Js.toLowerCase s) -> Js.class_matches reUpper c = false.
Proof.
  unfold Js.occurs. induction s as [|d s IH]; simpl; [tauto |].
  intros [<-|H]; [apply lower_char_not_upper | exact (IH H)].
Qed.

Lemma trimStart_chars (c : ascii) (s : string) :
  Js.occurs c (Js.trimStart s) -> Js.occurs c s.
Proof.
  unfold Js.occurs. induction s as [|d s IH]; simpl; [tauto |].
  destruct (Js.isWhiteSpace d); simpl; [intros H; right; exact (IH H) | tauto].
Qed.

Lemma trimEnd_chars (c : ascii) (s : string) :
  Js.occurs c (Js.trimEnd s) -> Js.occurs c s.
Proof.
  unfold Js.occurs. induction s as [|d s IH]; simpl; [tauto |].
  destruct (Js.trimEnd s) as [|x r].
  - destruct (Js.isWhiteSpace d); simpl; tauto.
  - simpl. intros [H|H]; [now left | right; apply IH; exact H].
Qed.

(** X15.  The form under which register looks an email up and stores it,
    and under which login looks it up, is a fixed point of [toLowerCase]
    and of [trim], and has no letter from A to Z in it. *)
Theorem normalizeEmail_normal (e : string) :
  Js.toLowerCase (normalizeEmail e) = normalizeEmail e /\
  Js.trim (normalizeEmail e) = normalizeEmail e /\
  (forall c, Js.occurs c (normalizeEmail e) ->
     Js.class_matches reUpper c = false).
Proof.
  unfold normalizeEmail. split; [| split].
  - now rewrite toLowerCase_trim, toLowerCase_idem.
  - apply trim_idem.
  - intros c H. unfold Js.trim in H.
    apply trimEnd_chars, trimStart_chars in H.
    exact (toLowerCase_chars c e H).
Qed.

(** X16.  The gate calls [next()] only for a header that is [Bearer], one
    space and a token without a space, and only when [jwt.verify] returned
    for exactly that token and the gate's secret; what it attaches is the
    [userId] and [email] of what [jwt.verify] returned. *)
Theorem authHandler_next {W : Type} (J : jwt.lib W) (secret : string)
    (req : Request) (w : W) (user : ReqUser) :
  authHandler J secret req w = Next user ->
  exists token decoded,
    authorization req = Some ("Bearer " ++ token) /\
    ~ Js.occurs " " token /\
    jwt.verify J token secret w = Returned decoded /\
    user = {| ReqUser.id := userId (payload decoded);
              ReqUser.email := payload_email (payload decoded) |}.
Proof.
  unfold authHandler.
  destruct (authorization req) as [h|]; cbn [Js.truthy negb]; [| discriminate].
  destruct (negb (h =? EmptyString)); cbn [negb]; [| discriminate].
  cbn [str orDefault].
  destruct (Js.split " " h) as [|a [|b [|c l]]] eqn:Hs;
    cbn [List.length Nat.eqb negb orb nth_error strictEq]; try discriminate.
  destruct (String.eqb_spec a "Bearer") as [->|_]; cbn [negb]; [| discriminate].
  cbn [str orDefault].
  apply split_two in Hs. destruct Hs as [-> [_ Hb]].
  destruct (jwt.verify J b secret w) as [decoded|e] eqn:Hv; [| discriminate].
  intros H. inversion H. exists b, decoded. repeat split; auto.
Qed.

Lemma authHandler_next_witness :
  exists token decoded,
    authorization
      (bearerRequest (Some ("Bearer " ++ Jwt.encode "s3cret" inactiveClaims)))
      = Some ("Bearer " ++ token) /\
    ~ Js.occurs " " token /\
    jwt.verify Jwt.lib token "s3cret" {| users := []; now := 2500 |}
      = Returned decoded /\
    {| ReqUser.id := "7"; ReqUser.email := "a@b.com" |}
    = {| ReqUser.id := userId (payload decoded);
         ReqUser.email := payload_email (payload decoded) |}.
Proof.
  apply (authHandler_next Jwt.lib "s3cret"
           (bearerRequest
              (Some ("Bearer " ++ Jwt.encode "s3cret" inactiveClaims)))
           {| users := []; now := 2500 |}
           {| ReqUser.id := "7"; ReqUser.email := "a@b.com" |}).
  vm_compute. reflexivity.
Defined.

(* ================================================================== *)
(** * Emails that differ only in case or surrounding white space *)
(* ================================================================== *)
































